(** * epsagon: trace events (epsagon/event.py) and the requests event
      factory (epsagon/events/requests.py)

    A shallow embedding of the two modules.  Python objects are dynamically
    typed: a value is a [pyval], an operation that may raise returns a
    [result], and the mutable state the code threads (the event itself, the
    standard output and the list of emitted events) is passed explicitly. *)

From Stdlib Require Import ZArith String Ascii List Bool Lia Permutation.
From Stdlib Require Import Floats.SpecFloat.
From stdpp Require Import base option list strings gmap pretty.

Local Open Scope string_scope.
Local Open Scope Z_scope.

(** ** Exceptions and results *)

(** The exception classes.  [UnicodeEncodeError] derives from [ValueError];
    [ValueErrorSubclass] is any other class that does (the [JSONDecodeError]
    of a JSON library, ...), [OtherException] any class that does not and is
    none of the above. *)
Inductive exc_class :=
| TypeError
| AttributeError
| IndexError
| KeyError
| ValueError
| UnicodeEncodeError
| ValueErrorSubclass (name : string)
| OtherException (name : string).

(** [isinstance(e, ValueError)], as [except ValueError] tests it. *)
Definition is_ValueError (c : exc_class) : bool :=
  match c with
  | ValueError | UnicodeEncodeError | ValueErrorSubclass _ => true
  | _ => false
  end.

(** An exception instance: its class and its [message] attribute. *)
Record pyexn := Exn { exn_class : exc_class; exn_message : string }.

Inductive result (A : Type) :=
| Ok (a : A)
| Raise (e : pyexn).
Arguments Ok {A} a.
Arguments Raise {A} e.

#[export] Instance result_ret : MRet result := fun A a => Ok a.
#[export] Instance result_bind : MBind result := fun A B f m =>
  match m with Ok a => f a | Raise e => Raise e end.
#[export] Instance result_fmap : FMap result := fun A B f m =>
  match m with Ok a => Ok (f a) | Raise e => Raise e end.

Definition succeeds {A} (m : result A) : Prop := exists a, m = Ok a.

#[export] Instance exc_class_eq_dec : EqDecision exc_class.
Proof. solve_decision. Defined.
#[export] Instance pyexn_eq_dec : EqDecision pyexn.
Proof. solve_decision. Defined.
#[export] Instance result_eq_dec {A} `{EqDecision A} : EqDecision (result A).
Proof. solve_decision. Defined.
#[export] Instance spec_float_eq_dec : EqDecision spec_float.
Proof. solve_decision. Defined.

(** ** Python values *)

(** An object of any type the code has no special case for.  The code sees it
    through three capabilities only: the name of its type, [str(o)] and its
    truth value; the last two run the object's own methods and may raise. *)
Record pyobj := PyObj {
  obj_id : positive;
  obj_type_name : option string;
  obj_str : result string;
  obj_bool : result bool;
}.

#[export] Instance pyobj_eq_dec : EqDecision pyobj.
Proof. solve_decision. Defined.

(** A dictionary key.  [_copy_user_data_safely] tells apart the four
    supported key types, [None], and everything else (a tuple, a frozenset,
    a [unicode] or [long] of Python 2, an instance of a user class, ...), of
    which it uses [str(key)] only: such a key is a [KObj]. *)
Inductive pykey :=
| KStr (s : string)
| KInt (z : Z)
| KFloat (f : spec_float)
| KBool (b : bool)
| KNone
| KObj (o : pyobj).

#[export] Instance pykey_eq_dec : EqDecision pykey.
Proof. solve_decision. Defined.

(** Values.  A dict is kept as the list of its entries in iteration order. *)
Unset Elimination Schemes.
Inductive pyval :=
| VNone
| VBool (b : bool)
| VInt (z : Z)
| VFloat (f : spec_float)
| VStr (s : string)
| VList (l : list pyval)
| VTuple (l : list pyval)
| VDict (d : list (pykey * pyval))
| VObj (o : pyobj).
Set Elimination Schemes.

Definition pydict := list (pykey * pyval).

(** [d.get(k)] *)
Fixpoint dict_get (k : pykey) (d : pydict) : option pyval :=
  match d with
  | [] => None
  | (k', v) :: d' => if decide (k = k') then Some v else dict_get k d'
  end.

(** [d.pop(k)]: the entry goes away; [KeyError] when there is none. *)
Definition dict_pop (k : pykey) (d : pydict) : result pydict :=
  match dict_get k d with
  | Some _ => Ok (filter (fun e => k <> e.1) d)
  | None => Raise (Exn KeyError "")
  end.

(** [d[k] = v]: an existing entry keeps its place, a new one goes last. *)
Fixpoint dict_set (k : pykey) (v : pyval) (d : pydict) : pydict :=
  match d with
  | [] => [(k, v)]
  | (k', v') :: d' =>
      if decide (k = k') then (k', v) :: d' else (k', v') :: dict_set k v d'
  end.

(** [x[k] = v] on an arbitrary object. *)
Definition py_setitem (x : pyval) (k : pykey) (v : pyval) : result pyval :=
  match x with
  | VDict d => Ok (VDict (dict_set k v d))
  | VList _ =>
      Raise (Exn TypeError "list indices must be integers, not str")
  | _ => Raise (Exn TypeError "object does not support item assignment")
  end.

(** The value of a float is [m * 2^e]; [float_eq_Z f z] is [f == z]. *)
Definition float_eq_Z (f : spec_float) (z : Z) : bool :=
  match f with
  | S754_zero _ => z =? 0
  | S754_finite s m e =>
      let n := if s then - Z.pos m else Z.pos m in
      if 0 <=? e then n * 2 ^ e =? z else n =? z * 2 ^ (- e)
  | _ => false
  end.

(** [v == n] for an int [n]; bools are ints, objects compare by identity. *)
Definition py_eq_int (v : pyval) (n : Z) : bool :=
  match v with
  | VInt z => z =? n
  | VBool b => (if b then 1 else 0) =? n
  | VFloat f => float_eq_Z f n
  | _ => false
  end.

(** [v == s] for a string [s]. *)
Definition py_eq_str (v : pyval) (s : string) : bool :=
  match v with
  | VStr s' => bool_decide (s' = s)
  | _ => false
  end.

(** [bool(v)], as [not data] evaluates it. *)
Definition py_truth (v : pyval) : result bool :=
  match v with
  | VNone => Ok false
  | VBool b => Ok b
  | VInt z => Ok (negb (z =? 0))
  | VFloat f => Ok (match f with S754_zero _ => false | _ => true end)
  | VStr s => Ok (negb (bool_decide (s = "")))
  | VList l | VTuple l => Ok (match l with [] => false | _ => true end)
  | VDict d => Ok (match d with [] => false | _ => true end)
  | VObj o => obj_bool o
  end.

(** [isinstance(data, (list, tuple, dict))] *)
Definition is_container (v : pyval) : bool :=
  match v with
  | VList _ | VTuple _ | VDict _ => true
  | _ => false
  end.

(** ** Strings, as the code uses them *)

Module PyStr.

(** [sub in s] *)
Fixpoint contains (sub s : string) : bool :=
  String.prefix sub s ||
  match s with
  | EmptyString => false
  | String _ s' => contains sub s'
  end.

(** [s.find(sub)], counted from the head of [s]; [-1] when absent. *)
Fixpoint find (sub s : string) : Z :=
  if String.prefix sub s then 0
  else match s with
       | EmptyString => -1
       | String _ s' => let i := find sub s' in if i <? 0 then -1 else i + 1
       end.

(** [s.find(sub, start)] for [0 <= start]. *)
Definition find_from (sub s : string) (start : Z) : Z :=
  let n := Z.to_nat start in
  if (Z.of_nat (String.length s) <? start) then -1
  else let i := find sub (String.substring n (String.length s - n) s) in
       if i <? 0 then -1 else i + start.

(** [s.rfind(sub)] for a one-character [sub]. *)
Fixpoint rfind_char (c : ascii) (s : string) : Z :=
  match s with
  | EmptyString => -1
  | String c' s' =>
      let i := rfind_char c s' in
      if 0 <=? i then i + 1 else if Ascii.eqb c c' then 0 else -1
  end.

(** [s[i:]]; a negative [i] counts from the end. *)
Definition slice_from (s : string) (i : Z) : string :=
  let len := Z.of_nat (String.length s) in
  let i' := if i <? 0 then Z.max 0 (len + i) else i in
  String.substring (Z.to_nat i') (String.length s - Z.to_nat i') s.

(** [s[:i]] for [0 <= i]. *)
Definition slice_to (s : string) (i : Z) : string :=
  String.substring 0 (Z.to_nat i) s.

(** [s.lower()] *)
Definition lower_char (c : ascii) : ascii :=
  let n := nat_of_ascii c in
  if ((65 <=? n) && (n <=? 90))%nat then ascii_of_nat (n + 32) else c.

Fixpoint lower (s : string) : string :=
  match s with
  | EmptyString => EmptyString
  | String c s' => String (lower_char c) (lower s')
  end.

(** [s.split(c)] for a one-character separator: never an empty list. *)
Fixpoint split (c : ascii) (s : string) : list string :=
  match s with
  | EmptyString => [EmptyString]
  | String c' s' =>
      if Ascii.eqb c c' then EmptyString :: split c s'
      else match split c s' with
           | [] => [String c' EmptyString]
           | w :: ws => String c' w :: ws
           end
  end.

(** [sep.join(l)] *)
Fixpoint join (sep : string) (l : list string) : string :=
  match l with
  | [] => EmptyString
  | [w] => w
  | w :: ws => w +:+ sep +:+ join sep ws
  end.

(** [l[-1]] of a list *)
Definition last_item {A} (l : list A) : result A :=
  match last l with
  | Some x => Ok x
  | None => Raise (Exn IndexError "list index out of range")
  end.

(** [l[-2:]] *)
Definition last_two {A} (l : list A) : list A :=
  drop (length l - 2) l.

(** [l[i]] for [0 <= i] *)
Definition item {A} (l : list A) (i : nat) : result A :=
  match l !! i with
  | Some x => Ok x
  | None => Raise (Exn IndexError "list index out of range")
  end.

End PyStr.

(** ** SHOULD_REMOVE_EXCEPTION_FRAMES, ErrorCode and the runtime *)

(** Modelled from the spec: [epsagon/common.py] is not among the sources; the
    error codes are the integers 0 = OK, 1 = ERROR, 2 = EXCEPTION. *)
Module ErrorCode.
Definition OK : Z := 0.
Definition ERROR : Z := 1.
Definition EXCEPTION : Z := 2.
End ErrorCode.

(** One entry of [inspect.trace()]: [frame.filename], [frame.function],
    [frame.lineno] and [frame.frame.f_locals], whose keys are variable
    names. *)
Record FrameInfo := {
  filename : string;
  function : string;
  lineno : Z;
  f_locals : list (string * pyval);
}.

(** What [set_exception] reads from its environment: the constant
    [SHOULD_REMOVE_EXCEPTION_FRAMES] of [epsagon/constants.py] (not among the
    sources, hence a field here), [sys.version_info.major], [time.time()] and
    [inspect.trace()]. *)
Record Env := {
  SHOULD_REMOVE_EXCEPTION_FRAMES : bool;
  version_major : Z;
  time_time : spec_float;
  inspect_trace : list FrameInfo;
}.

(** ** epsagon/event.py *)

Module BaseEvent.

Definition ORIGIN : string := "base".
Definition RESOURCE_TYPE : string := "base".

Record t := {
  start_time : pyval;
  event_id : pyval;
  origin : pyval;
  duration : pyval;
  error_code : pyval;
  exception : pyval;
  terminated : bool;
  resource : pyval;
}.

Definition with_error_code (c : pyval) (self : t) : t :=
  {| start_time := start_time self; event_id := event_id self;
     origin := origin self; duration := duration self; error_code := c;
     exception := exception self; terminated := terminated self;
     resource := resource self |}.

Definition with_exception (x : pyval) (self : t) : t :=
  {| start_time := start_time self; event_id := event_id self;
     origin := origin self; duration := duration self;
     error_code := error_code self; exception := x;
     terminated := terminated self; resource := resource self |}.

Definition with_event_id (x : pyval) (self : t) : t :=
  {| start_time := start_time self; event_id := x;
     origin := origin self; duration := duration self;
     error_code := error_code self; exception := exception self;
     terminated := terminated self; resource := resource self |}.

(** [BaseEvent.__init__(self, start_time)]; [uuid] is [str(uuid.uuid4())]. *)
Definition __init__ (uuid : string) (start_time : pyval) : t :=
  let metadata : pydict :=
    if bool_decide (ORIGIN = "runner") then [(KStr "trace_id", VStr uuid)]
    else [] in
  {| start_time := start_time;
     event_id := VStr "";
     origin := VStr ORIGIN;
     duration := VFloat (S754_zero false);
     error_code := VInt ErrorCode.OK;
     exception := VDict [];
     terminated := false;
     resource := VDict [(KStr "type", VStr RESOURCE_TYPE);
                        (KStr "name", VStr "");
                        (KStr "operation", VStr "");
                        (KStr "metadata", VDict metadata)] |}.

(** A call of [__init__] with the positional arguments [actuals] (after
    [self]): Python checks the arity before the body runs. *)
Definition call__init__ (uuid : string) (actuals : list pyval) : result t :=
  match actuals with
  | [start_time] => Ok (__init__ uuid start_time)
  | _ =>
      Raise (Exn TypeError
               ("__init__() takes exactly 2 arguments ("
                +:+ pretty (Z.of_nat (S (length actuals))) +:+ " given)"))
  end.

(** [event_data[key]] *)
Definition getitem (event_data : gmap string pyval) (key : string)
  : result pyval :=
  match event_data !! key with
  | Some v => Ok v
  | None => Raise (Exn KeyError key)
  end.

Definition load_from_dict (uuid : string) (event_data : gmap string pyval)
  : result t :=
  st ← getitem event_data "start_time";
  let event := __init__ uuid st in
  id ← getitem event_data "id";
  o ← getitem event_data "origin";
  d ← getitem event_data "duration";
  ec ← getitem event_data "error_code";
  r ← getitem event_data "resource";
  let event :=
    {| start_time := start_time event; event_id := id; origin := o;
       duration := d; error_code := ec; exception := exception event;
       terminated := terminated event; resource := r |} in
  if py_eq_int (error_code event) ErrorCode.EXCEPTION then
    x ← getitem event_data "exception";
    Ok (with_exception x event)
  else Ok event.

Definition to_dict (self : t) : gmap string pyval :=
  let self_as_dict : gmap string pyval :=
    {[ "id" := event_id self;
       "start_time" := start_time self;
       "duration" := duration self;
       "origin" := origin self;
       "error_code" := error_code self;
       "resource" := resource self ]} in
  if py_eq_int (error_code self) ErrorCode.EXCEPTION then
    <["exception" := exception self]> self_as_dict
  else self_as_dict.

Definition set_error (self : t) : t :=
  if negb (py_eq_int (error_code self) ErrorCode.EXCEPTION) then
    with_error_code (VInt ErrorCode.ERROR) self
  else self.

(** [key is None or not isinstance(key, (str, int, float, bool))]: for such
    a key, the outcome of [str(key)]; [None] for a supported key. *)
Definition unsupported_key_str (key : pykey) : option (result string) :=
  match key with
  | KNone => Some (Ok "None")
  | KObj o => Some (obj_str o)
  | KStr _ | KInt _ | KFloat _ | KBool _ => None
  end.

(** The loop [for key in data] of [_copy_user_data_safely]: [entries] is what
    is left of [data], [copied_dict] the copy being edited. *)
Definition copy_entries (copy : pyval -> result pyval)
  : pydict -> pydict -> result pydict :=
  fix loop entries copied_dict :=
    match entries with
    | [] => Ok copied_dict
    | (key, v) :: rest =>
        value ← copy v;
        match unsupported_key_str key with
        | None => loop rest copied_dict
        | Some str_key =>
            popped ← dict_pop key copied_dict;
            s ← str_key;
            loop rest (dict_set (KStr s) value popped)
        end
    end.

Fixpoint _copy_user_data_safely (data : pyval) : result pyval :=
  truth ← py_truth data;
  if negb truth || negb (is_container data) then Ok data
  else match data with
       | VList l | VTuple l => VList <$> mapM _copy_user_data_safely l
       | VDict d => VDict <$> copy_entries _copy_user_data_safely d d
       | _ => Ok data
       end.

(** A method that mutates [self]: it returns or raises, and either way
    leaves the event as far as it got. *)
Definition method (A : Type) : Type := t -> result A * t.

Definition ret {A} (a : A) : method A := fun self => (Ok a, self).

Definition bind {A B} (m : method A) (k : A -> method B) : method B :=
  fun self =>
    match m self with
    | (Ok a, self') => k a self'
    | (Raise e, self') => (Raise e, self')
    end.

Definition lift {A} (r : result A) : method A := fun self => (r, self).

Notation "'do' x <- m ; k" := (bind m (fun x => k))
  (at level 10, x name, m at level 100, k at level 200).

(** [d.setdefault(k, dflt)]: the dict afterwards and the value returned. *)
Definition py_setdefault (x : pyval) (k : pykey) (dflt : pyval)
  : result (pyval * pyval) :=
  match x with
  | VDict d =>
      match dict_get k d with
      | Some v => Ok (x, v)
      | None => Ok (VDict (dict_set k dflt d), dflt)
      end
  | _ => Raise (Exn AttributeError "object has no attribute 'setdefault'")
  end.

(** [x[k]] *)
Definition py_getitem (x : pyval) (k : pykey) : result pyval :=
  match x with
  | VDict d =>
      match dict_get k d with
      | Some v => Ok v
      | None => Raise (Exn KeyError "")
      end
  | _ => Raise (Exn TypeError "object has no attribute '__getitem__'")
  end.

(** [self.exception[k] = v] *)
Definition setitem_exception (k : string) (v : pyval) : method unit :=
  fun self =>
    match py_setitem (exception self) (KStr k) v with
    | Ok x => (Ok tt, with_exception x self)
    | Raise e => (Raise e, self)
    end.

(** ['/'.join([frame.filename, frame.function, str(frame.lineno)])] *)
Definition frame_key (frame : FrameInfo) : string :=
  PyStr.join "/" [filename frame; function frame; pretty (lineno frame)].

(** [frame.frame.f_locals] as a value *)
Definition locals_dict (frame : FrameInfo) : pyval :=
  VDict (map (fun e => (KStr e.1, e.2)) (f_locals frame)).

(** ['/epsagon' not in frame.filename and frame.frame.f_locals] *)
Definition keep_frame (frame : FrameInfo) : bool :=
  negb (PyStr.contains "/epsagon" (filename frame))
  && match f_locals frame with [] => false | _ => true end.

(** The dict comprehension over [inspect.trace()]. *)
Definition collect_frames (trace : list FrameInfo) : pydict :=
  fold_left
    (fun frames frame =>
       if keep_frame frame
       then dict_set (KStr (frame_key frame)) (locals_dict frame) frames
       else frames)
    trace [].

Definition set_exception (env : Env) (exc : pyobj) (traceback_data : pyval)
  (handled from_logs : bool) : method unit :=
  do _ <- (fun self =>
             (Ok tt, with_error_code (VInt ErrorCode.EXCEPTION) self));
  do _ <- setitem_exception "type"
            (VStr (match obj_type_name exc with
                   | Some name => name
                   | None => "Unknown"
                   end));
  do message <- lift (obj_str exc);
  do _ <- setitem_exception "message" (VStr message);
  do traceback <- lift (_copy_user_data_safely traceback_data);
  do _ <- setitem_exception "traceback" traceback;
  do _ <- setitem_exception "time" (VFloat (time_time env));
  do _ <- (if negb (SHOULD_REMOVE_EXCEPTION_FRAMES env)
           then if version_major env =? 3
                then setitem_exception "frames"
                       (VDict (collect_frames (inspect_trace env)))
                else ret tt
           else ret tt);
  do _ <- (fun self =>
             match py_setdefault (exception self) (KStr "additional_data")
                     (VDict []) with
             | Raise e => (Raise e, self)
             | Ok (x, additional_data) =>
                 let self := with_exception x self in
                 match py_setitem additional_data (KStr "handled")
                         (VBool handled) with
                 | Raise e => (Raise e, self)
                 | Ok additional_data' =>
                     setitem_exception "additional_data" additional_data' self
                 end
             end);
  if from_logs then
    do additional_data <-
      (fun self =>
         (py_getitem (exception self) (KStr "additional_data"), self));
    do additional_data' <-
      lift (py_setitem additional_data (KStr "from_logs") (VBool true));
    setitem_exception "additional_data" additional_data'
  else ret tt.

Definition with_duration (d : pyval) (self : t) : t :=
  {| start_time := start_time self; event_id := event_id self;
     origin := origin self; duration := d;
     error_code := error_code self; exception := exception self;
     terminated := terminated self; resource := resource self |}.

Definition with_terminated (b : bool) (self : t) : t :=
  {| start_time := start_time self; event_id := event_id self;
     origin := origin self; duration := duration self;
     error_code := error_code self; exception := exception self;
     terminated := b; resource := resource self |}.

(** [terminate]; [sub] is the subtraction [time.time() - self.start_time],
    which raises when [start_time] is not a number. *)
Definition terminate (sub : pyval -> pyval -> result pyval) (env : Env)
  : method unit :=
  fun self =>
    if negb (terminated self) then
      match sub (VFloat (time_time env)) (start_time self) with
      | Ok d => (Ok tt, with_terminated true (with_duration d self))
      | Raise e => (Raise e, self)
      end
    else (Ok tt, self).

End BaseEvent.

(** ** urlparse (Python 2 standard library), as far as the code uses it *)

Module urlparse.

Definition scheme_chars : string :=
  "abcdefghijklmnopqrstuvwxyzABCDEFGHIJKLMNOPQRSTUVWXYZ0123456789+-.".

Definition uses_params : list string :=
  ["ftp"; "hdl"; "prospero"; "http"; "imap"; "https"; "shttp"; "rtsp";
   "rtspu"; "sip"; "sips"; "mms"; ""; "sftp"; "tel"].

Record ParseResult := {
  scheme : string;
  netloc : string;
  path : string;
  params : string;
  query : string;
  fragment : string;
}.

Definition char_in (chars : string) (c : ascii) : bool :=
  PyStr.contains (String c EmptyString) chars.

Definition all_chars (p : ascii -> bool) (s : string) : bool :=
  forallb p (list_ascii_of_string s).

(** [s[a:b]] for [0 <= a] *)
Definition slice (s : string) (a b : Z) : string :=
  String.substring (Z.to_nat a) (Z.to_nat (b - a)) s.

(** [s.split(c, 1)] when [c in s] *)
Definition split_once (c : string) (s : string) : string * string :=
  let i := PyStr.find c s in
  (PyStr.slice_to s i, PyStr.slice_from s (i + 1)).

Definition _splitnetloc (url : string) (start : Z) : string * string :=
  let delim :=
    fold_left
      (fun delim c =>
         let wdelim := PyStr.find_from c url start in
         if 0 <=? wdelim then Z.min delim wdelim else delim)
      ["/"; "?"; "#"] (Z.of_nat (String.length url)) in
  (slice url start delim, PyStr.slice_from url delim).

(** [urlsplit(url)]: scheme, netloc, path, query, fragment *)
Definition urlsplit (url : string)
  : result (string * string * string * string * string) :=
  let i := PyStr.find ":" url in
  let head := PyStr.slice_to url i in
  let rest := PyStr.slice_from url (i + 1) in
  let '(scheme, url) :=
    if 0 <? i then
      if bool_decide (head = "http") then (PyStr.lower head, rest)
      else if all_chars (char_in scheme_chars) head then
        if bool_decide (rest = "")
           || negb (all_chars (char_in "0123456789") rest)
        then (PyStr.lower head, rest)
        else ("", url)
      else ("", url)
    else ("", url) in
  '(netloc, url) ←
    (if bool_decide (PyStr.slice_to url 2 = "//") then
       let '(netloc, url) := _splitnetloc url 2 in
       if (PyStr.contains "[" netloc && negb (PyStr.contains "]" netloc))
          || (PyStr.contains "]" netloc && negb (PyStr.contains "[" netloc))
       then Raise (Exn ValueError "Invalid IPv6 URL")
       else Ok (netloc, url)
     else Ok ("", url));
  let '(url, fragment) :=
    if PyStr.contains "#" url then split_once "#" url else (url, "") in
  let '(url, query) :=
    if PyStr.contains "?" url then split_once "?" url else (url, "") in
  Ok (scheme, netloc, url, query, fragment).

Definition _splitparams (url : string) : string * string :=
  if PyStr.contains "/" url then
    let i := PyStr.find_from ";" url (PyStr.rfind_char "/" url) in
    if i <? 0 then (url, "")
    else (PyStr.slice_to url i, PyStr.slice_from url (i + 1))
  else
    let i := PyStr.find ";" url in
    (PyStr.slice_to url i, PyStr.slice_from url (i + 1)).

Definition urlparse (url : string) : result ParseResult :=
  '(scheme, netloc, url, query, fragment) ← urlsplit url;
  let '(url, params) :=
    if bool_decide (scheme ∈ uses_params) && PyStr.contains ";" url
    then _splitparams url else (url, "") in
  Ok {| scheme := scheme; netloc := netloc; path := url; params := params;
        query := query; fragment := fragment |}.

End urlparse.

(** ** epsagon/events/requests.py *)

Module Requests.

Definition BLACKLIST_URLS : list string :=
  ["https://accounts.google.com/o/oauth2/token"].

(** The classes of the module; all but the first derive from it. *)
Inductive event_class :=
| RequestsEvent
| RequestsAuth0Event
| RequestsTwilioEvent
| RequestsGoogleAPIEvent
| RequestsOutlookOfficeEvent.

#[export] Instance event_class_eq_dec : EqDecision event_class.
Proof. solve_decision. Defined.

Definition EVENT_TYPE (cls : event_class) : string :=
  match cls with
  | RequestsEvent => "requests"
  | RequestsAuth0Event => "auth0"
  | RequestsTwilioEvent => "twilio"
  | RequestsGoogleAPIEvent => "googleapis"
  | RequestsOutlookOfficeEvent => "outlook.office"
  end.

Definition API_TAG : string := "/api/v2/".

(** [RequestsEvent.__subclasses__()], in the order of definition *)
Definition __subclasses__ : list event_class :=
  [RequestsAuth0Event; RequestsTwilioEvent; RequestsGoogleAPIEvent;
   RequestsOutlookOfficeEvent].

(** The object in [args[0]]: an attribute it lacks is [None] here. *)
Record PreparedRequest := {
  method : option pyval;
  url : option string;
  body : option pyval;
  path_url : option string;
}.

Definition getattr {A} (name : string) (field : option A) : result A :=
  match field with
  | Some v => Ok v
  | None =>
      Raise (Exn AttributeError
               ("object has no attribute '" +:+ name +:+ "'"))
  end.

(** The response: [json] is the outcome of [response.json()]. *)
Record Response := {
  status_code : Z;
  headers : list (string * string);
  json : result pyval;
}.

(** An instance of [RequestsEvent] or of a subclass. *)
Record t := {
  base : BaseEvent.t;
  resource_name : string;
  event_operation : pyval;
  metadata : gmap string pyval;
  event_type : option string;
}.

Definition with_base (b : BaseEvent.t) (self : t) : t :=
  {| base := b; resource_name := resource_name self;
     event_operation := event_operation self; metadata := metadata self;
     event_type := event_type self |}.

Definition with_metadata (m : gmap string pyval) (self : t) : t :=
  {| base := base self; resource_name := resource_name self;
     event_operation := event_operation self; metadata := m;
     event_type := event_type self |}.

Definition with_event_operation (op : pyval) (self : t) : t :=
  {| base := base self; resource_name := resource_name self;
     event_operation := op; metadata := metadata self;
     event_type := event_type self |}.

Definition with_event_type (ty : string) (self : t) : t :=
  {| base := base self; resource_name := resource_name self;
     event_operation := event_operation self; metadata := metadata self;
     event_type := Some ty |}.

(** [self.set_error()], inherited *)
Definition set_error (self : t) : t :=
  with_base (BaseEvent.set_error (base self)) self.

Definition update_response (response : Response) (self : t) : result t :=
  let md := <["status_code" := VInt (status_code response)]> (metadata self) in
  let md :=
    <["response_headers" :=
        VDict (map (fun h => (KStr h.1, VStr h.2)) (headers response))]> md in
  let md := <["response_body" := VNone]> md in
  md ← match json response with
       | Ok v => Ok (<["response_body" := v]> md)
       | Raise e =>
           if is_ValueError (exn_class e) then Ok md else Raise e
       end;
  let self := with_metadata md self in
  Ok (if 300 <=? status_code response then set_error self else self).

(** The body of [RequestsEvent.__init__] after the call of the superclass
    initialiser, which gave [self_base]. *)
Definition init_body (cls : event_class) (uuid : string)
  (self_base : BaseEvent.t) (args : list PreparedRequest)
  (response : option Response) (exception : option pyobj) : result t :=
  let self_base :=
    BaseEvent.with_event_id (VStr ("requests-" +:+ uuid)) self_base in
  prepared_request ← PyStr.item args 0;
  operation ← getattr "method" (method prepared_request);
  m ← getattr "method" (method prepared_request);
  u ← getattr "url" (url prepared_request);
  b ← getattr "body" (body prepared_request);
  let self :=
    {| base := self_base;
       resource_name := EVENT_TYPE cls;
       event_operation := operation;
       metadata := {[ "method" := m; "url" := VStr u; "request_body" := b ]};
       event_type := None |} in
  self ← match response with
         | Some r => update_response r self
         | None => Ok self
         end;
  Ok (match exception with Some _ => set_error self | None => self end).

(** [RequestsEvent.__init__]: [super(RequestsEvent, self).__init__()] passes
    no argument after [self]. *)
Definition RequestsEvent__init__ (cls : event_class) (uuid_trace uuid : string)
  (wrapped instance : pyval) (args : list PreparedRequest) (kwargs : pyval)
  (response : option Response) (exception : option pyobj) : result t :=
  self_base ← BaseEvent.call__init__ uuid_trace [];
  init_body cls uuid self_base args response exception.

(** [instance_type(wrapped, instance, args, kwargs, response, exception)] *)
Definition __init__ (cls : event_class) (uuid_trace uuid : string)
  (wrapped instance : pyval) (args : list PreparedRequest) (kwargs : pyval)
  (response : option Response) (exception : option pyobj) : result t :=
  self ← RequestsEvent__init__ cls uuid_trace uuid wrapped instance args kwargs
           response exception;
  match cls with
  | RequestsEvent => Ok self
  | RequestsAuth0Event =>
      prepared_request ← PyStr.item args 0;
      url ← getattr "path_url" (path_url prepared_request);
      Ok (with_event_operation
            (VStr (PyStr.slice_from url
                     (PyStr.find API_TAG url
                      + Z.of_nat (String.length API_TAG))))
            self)
  | RequestsTwilioEvent =>
      prepared_request ← PyStr.item args 0;
      p ← getattr "path_url" (path_url prepared_request);
      op ← PyStr.last_item (PyStr.split "/" p);
      Ok (with_event_operation (VStr op) self)
  | RequestsGoogleAPIEvent =>
      prepared_request ← PyStr.item args 0;
      p ← getattr "path_url" (path_url prepared_request);
      let self :=
        with_event_operation
          (VStr (PyStr.join "/" (PyStr.last_two (PyStr.split "/" p)))) self in
      u ← getattr "url" (url prepared_request);
      parsed ← urlparse.urlparse u;
      api ← PyStr.item (PyStr.split "/" (urlparse.path parsed)) 1;
      Ok (with_event_type ("google_" +:+ api) self)
  | RequestsOutlookOfficeEvent =>
      prepared_request ← PyStr.item args 0;
      p ← getattr "path_url" (path_url prepared_request);
      Ok (with_event_operation
            (VStr (PyStr.join "/" (PyStr.last_two (PyStr.split "/" p)))) self)
  end.

(** What the process shows: the lines printed and the events emitted. *)
Record World := {
  stdout : list string;
  emitted : list t;
}.

Definition print (line : string) (w : World) : World :=
  {| stdout := stdout w ++ [line]; emitted := emitted w |}.

(** [super(RequestsEvent, self).add_event()]: [BaseEvent] defines no
    [add_event], so the attribute lookup fails. *)
Definition BaseEvent_add_event (self : t) (w : World) : result unit * World :=
  (Raise (Exn AttributeError "'super' object has no attribute 'add_event'"),
   w).

(** [RequestsEvent.add_event]; [super_add_event] is the method the
    superclass lookup yields. *)
Definition add_event (super_add_event : t -> World -> result unit * World)
  (self : t) (w : World) : result unit * World :=
  match metadata self !! "url" with
  | None => (Raise (Exn KeyError "url"), w)
  | Some u =>
      if existsb (py_eq_str u) BLACKLIST_URLS then (Ok tt, w)
      else super_add_event self w
  end.

(** The dict [factory]; [factory_iter] below is the order in which a loop
    over it yields its keys (Python 2 does not fix it). *)
Definition factory : list (string * event_class) :=
  map (fun class_obj => (EVENT_TYPE class_obj, class_obj)) __subclasses__.

Definition select_instance_type (factory_iter : list (string * event_class))
  (base_url : string) : event_class :=
  fold_left
    (fun instance_type entry =>
       if PyStr.contains entry.1 (PyStr.lower base_url) then entry.2
       else instance_type)
    factory_iter RequestsEvent.

(** The statements of [create_event] before its [try]. *)
Definition resolve (factory_iter : list (string * event_class))
  (args : list PreparedRequest) : result event_class :=
  prepared_request ← PyStr.item args 0;
  u ← getattr "url" (url prepared_request);
  parsed ← urlparse.urlparse u;
  let base_url := urlparse.netloc parsed in
  Ok (select_instance_type factory_iter base_url).

(** The [except Exception as ev_exception] clause. *)
Definition handler (ev_exception : pyexn) (w : World) : result unit * World :=
  (Ok tt,
   print ("Epsagon Error: Could not create requests event: "
          +:+ exn_message ev_exception) w).

(** The [try] statement of [create_event]. *)
Definition try_create (super_add_event : t -> World -> result unit * World)
  (instance_type : event_class) (uuid_trace uuid : string)
  (wrapped instance : pyval) (args : list PreparedRequest) (kwargs : pyval)
  (response : option Response) (exception : option pyobj) (w : World)
  : result unit * World :=
  match __init__ instance_type uuid_trace uuid wrapped instance args kwargs
          response exception with
  | Raise ev_exception => handler ev_exception w
  | Ok event =>
      match add_event super_add_event event w with
      | (Ok tt, w') => (Ok tt, w')
      | (Raise ev_exception, w') => handler ev_exception w'
      end
  end.

Definition create_event (factory_iter : list (string * event_class))
  (uuid_trace uuid : string)
  (wrapped instance : pyval) (args : list PreparedRequest) (kwargs : pyval)
  (response : option Response) (exception : option pyobj) (w : World)
  : result unit * World :=
  match resolve factory_iter args with
  | Raise e => (Raise e, w)
  | Ok instance_type =>
      try_create BaseEvent_add_event instance_type uuid_trace uuid
        wrapped instance args kwargs response exception w
  end.

End Requests.

(** ** Vocabulary of the properties *)

(** The error code of the event is EXCEPTION. *)
Definition is_EXCEPTION (self : BaseEvent.t) : bool :=
  py_eq_int (BaseEvent.error_code self) ErrorCode.EXCEPTION.

(** The keys every representation has. *)
Definition required_keys : gset string :=
  {[ "id"; "start_time"; "duration"; "origin"; "error_code"; "resource" ]}.

(** A well-formed representation: the required keys, an ["exception"] key
    exactly when the error code is EXCEPTION, and no other key. *)
Definition well_formed (x : gmap string pyval) : Prop :=
  exists ec,
    x !! "error_code" = Some ec /\
    dom x = if py_eq_int ec ErrorCode.EXCEPTION
            then required_keys ∪ {[ "exception" ]}
            else required_keys.

(** A supported key: a str, an int, a float or a bool. *)
Definition supported (k : pykey) : Prop :=
  BaseEvent.unsupported_key_str k = None.

(** The last frame of the trace that is kept and has the key [k]. *)
Fixpoint last_kept (k : string) (trace : list FrameInfo) : option FrameInfo :=
  match trace with
  | [] => None
  | frame :: rest =>
      match last_kept k rest with
      | Some frame' => Some frame'
      | None =>
          if BaseEvent.keep_frame frame
             && bool_decide (BaseEvent.frame_key frame = k)
          then Some frame else None
      end
  end.


(** The tuple [(1, 2)] used as a key. *)
Definition key_1_2 : pykey :=
  KObj (PyObj 1 (Some "tuple") (Ok "(1, 2)") (Ok true)).


(** An object whose type has no [__name__]. *)
Definition nameless_error : pyobj := PyObj 3 None (Ok "boom") (Ok true).

(** A trace of a recursive function: two frames at the same line of the
    same function, with different locals. *)
Definition outer_frame : FrameInfo :=
  {| filename := "/app/main.py"; function := "walk"; lineno := 10;
     f_locals := [("depth", VInt 0)] |}.

Definition inner_frame : FrameInfo :=
  {| filename := "/app/main.py"; function := "walk"; lineno := 10;
     f_locals := [("depth", VInt 1)] |}.

Definition recursive_trace : list FrameInfo := [outer_frame; inner_frame].

Definition recursive_env : Env :=
  {| SHOULD_REMOVE_EXCEPTION_FRAMES := false;
     version_major := 3;
     time_time := S754_zero false;
     inspect_trace := recursive_trace |}.

(** A Python 2 process. *)
Definition python2_env : Env :=
  {| SHOULD_REMOVE_EXCEPTION_FRAMES := false;
     version_major := 2;
     time_time := S754_zero false;
     inspect_trace := [] |}.

(** A key whose [__str__] raises, and a frame with a local variable that
    holds a dict with this key. *)
Definition silent_key : pykey :=
  KObj (PyObj 4 (Some "Token")
          (Raise (Exn (OtherException "NotImplementedError") "")) (Ok true)).

Definition token_frame : FrameInfo :=
  {| filename := "/app/auth.py"; function := "check"; lineno := 7;
     f_locals := [("seen", VDict [(silent_key, VInt 1)])] |}.

Definition token_env : Env :=
  {| SHOULD_REMOVE_EXCEPTION_FRAMES := false;
     version_major := 3;
     time_time := S754_zero false;
     inspect_trace := [token_frame] |}.

(** A new event. *)
Definition new_event : BaseEvent.t := BaseEvent.__init__ "" (VInt 0).

(** A prepared request to Twilio. *)
Definition twilio_request : Requests.PreparedRequest :=
  {| Requests.method := Some (VStr "POST");
     Requests.url :=
       Some "https://api.twilio.com/2010-04-01/Accounts/AC123/Messages.json";
     Requests.body := Some (VStr "Body=hello");
     Requests.path_url := Some "/2010-04-01/Accounts/AC123/Messages.json" |}.

(** A request object that has no [url] attribute. *)
Definition request_without_url : Requests.PreparedRequest :=
  {| Requests.method := Some (VStr "GET");
     Requests.url := None;
     Requests.body := Some VNone;
     Requests.path_url := Some "/" |}.

(** A request to the deny-listed URL. *)
Definition token_request : Requests.PreparedRequest :=
  {| Requests.method := Some (VStr "POST");
     Requests.url := Some "https://accounts.google.com/o/oauth2/token";
     Requests.body := Some VNone;
     Requests.path_url := Some "/o/oauth2/token" |}.

(** Nothing printed, nothing emitted. *)
Definition quiet : Requests.World :=
  {| Requests.stdout := []; Requests.emitted := [] |}.

(** A superclass [add_event] that emits the event. *)
Definition emitting_add_event (self : Requests.t) (w : Requests.World)
  : result unit * Requests.World :=
  (Ok tt,
   {| Requests.stdout := Requests.stdout w;
      Requests.emitted := Requests.emitted w ++ [self] |}).

(** The message of the [TypeError] that [BaseEvent.__init__()] raises. *)
Definition arity_message : string :=
  "__init__() takes exactly 2 arguments (1 given)".

(** The event the constructor body builds for the deny-listed request. *)
Definition denied_event : Requests.t :=
  {| Requests.base :=
       BaseEvent.with_event_id (VStr "requests-") new_event;
     Requests.resource_name := "requests";
     Requests.event_operation := VStr "POST";
     Requests.metadata :=
       {[ "method" := VStr "POST";
          "url" := VStr "https://accounts.google.com/o/oauth2/token";
          "request_body" := VNone ]};
     Requests.event_type := None |}.

(** The representation of an event that carries an exception. *)
Definition exception_representation : gmap string pyval :=
  <[ "id" := VStr "requests-1" ]>
  (<[ "start_time" := VInt 1541376000 ]>
  (<[ "duration" := VInt 2 ]>
  (<[ "origin" := VStr "base" ]>
  (<[ "error_code" := VInt 2 ]>
  (<[ "resource" := VDict [(KStr "type", VStr "base")] ]>
  (<[ "exception" := VDict [(KStr "type", VStr "ValueError")] ]> ∅)))))).

(** What [load_from_dict] makes of the representation of [self]: the
    exception payload is read only under the code EXCEPTION, and
    [terminated] is not part of the representation. *)
Definition reloaded (self : BaseEvent.t) : BaseEvent.t :=
  {| BaseEvent.start_time := BaseEvent.start_time self;
     BaseEvent.event_id := BaseEvent.event_id self;
     BaseEvent.origin := BaseEvent.origin self;
     BaseEvent.duration := BaseEvent.duration self;
     BaseEvent.error_code := BaseEvent.error_code self;
     BaseEvent.exception :=
       if is_EXCEPTION self then BaseEvent.exception self else VDict [];
     BaseEvent.terminated := false;
     BaseEvent.resource := BaseEvent.resource self |}.

(** The fields no method touches after construction, and the latch. *)
Definition keeps_identity (self self' : BaseEvent.t) : Prop :=
  BaseEvent.start_time self' = BaseEvent.start_time self
  /\ BaseEvent.event_id self' = BaseEvent.event_id self
  /\ BaseEvent.origin self' = BaseEvent.origin self
  /\ BaseEvent.resource self' = BaseEvent.resource self
  /\ (BaseEvent.terminated self = true -> BaseEvent.terminated self' = true).

(** The value of the last entry of [d] whose key is not a supported one and
    has the string [s]. *)
Fixpoint last_coerced (s : string) (d : pydict) : option pyval :=
  match d with
  | [] => None
  | (k, v) :: rest =>
      match last_coerced s rest with
      | Some v' => Some v'
      | None =>
          match BaseEvent.unsupported_key_str k with
          | Some (Ok s') => if bool_decide (s' = s) then Some v else None
          | _ => None
          end
      end
  end.

(** What a returning [_copy_user_data_safely] gave for [v]. *)
Definition copied (v : pyval) : option pyval :=
  match BaseEvent._copy_user_data_safely v with
  | Ok w => Some w
  | Raise _ => None
  end.

(** The keys [set_exception] writes. *)
Definition payload_keys : list string :=
  ["type"; "message"; "traceback"; "time"; "frames"; "additional_data"].

(** The tag of the factory entry occurs in the host. *)
Definition tag_matches (base_url : string)
  (entry : string * Requests.event_class) : bool :=
  PyStr.contains entry.1 (PyStr.lower base_url).

(** A response with a body that is not JSON. *)
Definition not_found_response : Requests.Response :=
  {| Requests.status_code := 404;
     Requests.headers := [("Content-Type", "text/plain")];
     Requests.json :=
       Raise (Exn ValueError "No JSON object could be decoded") |}.

(** The event after a first capture from the logs. *)
Definition logged_event : BaseEvent.t :=
  (BaseEvent.set_exception python2_env nameless_error (VStr "tb") true true
     new_event).2.

(** A dict in which the string of the tuple key is a key as well. *)
Definition colliding_dict : pydict :=
  [(key_1_2, VTuple [VInt 1]); (KStr "(1, 2)", VInt 4)].

(** A response whose [json()] fails with something else than a
    [ValueError]. *)
Definition broken_response : Requests.Response :=
  {| Requests.status_code := 200;
     Requests.headers := [];
     Requests.json :=
       Raise (Exn (OtherException "RuntimeError") "connection closed") |}.

(** The deny-listed event after the 404 response. *)
Definition not_found_event : Requests.t :=
  match Requests.update_response not_found_response denied_event with
  | Ok self => self
  | Raise _ => denied_event
  end.

(** What the constructor body builds for the Twilio request and the 404
    response. *)
Definition twilio_not_found_event : Requests.t :=
  match Requests.init_body Requests.RequestsTwilioEvent "7f3a" new_event
          [twilio_request] (Some not_found_response) None with
  | Ok self => self
  | Raise _ => denied_event
  end.

(** The wording of the round-trip property: the dict contains the required
    keys, and the key ["exception"] exactly when its error code is
    EXCEPTION. *)
Definition contains_required_keys (x : gmap string pyval) : Prop :=
  (forall k, k ∈ required_keys -> is_Some (x !! k))
  /\ exists ec,
       x !! "error_code" = Some ec
       /\ (is_Some (x !! "exception")
           <-> py_eq_int ec ErrorCode.EXCEPTION = true).

(** A representation with one more key. *)
Definition traced_representation : gmap string pyval :=
  <[ "trace" := VInt 7 ]> exception_representation.

(** A response whose body cannot be decoded: [json()] raises a subclass of
    [ValueError]. *)
Definition undecodable_response : Requests.Response :=
  {| Requests.status_code := 200;
     Requests.headers := [];
     Requests.json :=
       Raise (Exn UnicodeEncodeError "'ascii' codec can't encode") |}.

(** ** Induction on values *)

Section pyval_induction.
Variable P : pyval -> Prop.
Hypothesis HNone : P VNone.
Hypothesis HBool : forall b, P (VBool b).
Hypothesis HInt : forall z, P (VInt z).
Hypothesis HFloat : forall f, P (VFloat f).
Hypothesis HStr : forall s, P (VStr s).
Hypothesis HList : forall l, Forall P l -> P (VList l).
Hypothesis HTuple : forall l, Forall P l -> P (VTuple l).
Hypothesis HDict : forall d, Forall (fun e => P e.2) d -> P (VDict d).
Hypothesis HObj : forall o, P (VObj o).

Fixpoint pyval_ind (v : pyval) : P v :=
  let all :=
    fix all (l : list pyval) : Forall P l :=
      match l with
      | [] => @List.Forall_nil _ P
      | x :: l' => @List.Forall_cons _ P x l' (pyval_ind x) (all l')
      end in
  match v with
  | VNone => HNone
  | VBool b => HBool b
  | VInt z => HInt z
  | VFloat f => HFloat f
  | VStr s => HStr s
  | VList l => HList l (all l)
  | VTuple l => HTuple l (all l)
  | VDict d =>
      HDict d
        ((fix all_entries (d : list (pykey * pyval))
            : Forall (fun e => P e.2) d :=
            match d with
            | [] => @List.Forall_nil _ _
            | e :: d' =>
                @List.Forall_cons _ (fun e => P e.2) e d' (pyval_ind e.2)
                  (all_entries d')
            end) d)
  | VObj o => HObj o
  end.
End pyval_induction.

(** ** Facts about results and dicts *)

Lemma bind_Ok {A B} (m : result A) (f : A -> result B) (b : B) :
  m ≫= f = Ok b -> exists a, m = Ok a /\ f a = Ok b.
Proof. destruct m as [a|e]; simpl; [eauto | discriminate]. Qed.

Lemma fmap_Ok {A B} (m : result A) (f : A -> B) (b : B) :
  f <$> m = Ok b -> exists a, m = Ok a /\ b = f a.
Proof.
  destruct m as [a|e]; simpl; [|discriminate].
  intros [= <-]. eauto.
Qed.

Lemma mapM_Ok {A B} (f : A -> result B) (l : list A) (r : list B) :
  mapM f l = Ok r -> Forall2 (fun x y => f x = Ok y) l r.
Proof.
  revert r. induction l as [|x l IH]; intros r; simpl.
  - intros [= <-]. constructor.
  - intros H. apply bind_Ok in H as (y & Hy & H).
    apply bind_Ok in H as (k & Hk & H). injection H as <-.
    constructor; auto.
Qed.

Lemma mapM_fixed {A} (f : A -> result A) (r : list A) :
  Forall (fun y => f y = Ok y) r -> mapM f r = Ok r.
Proof.
  induction 1 as [|y r Hy _ IH]; simpl; [reflexivity|].
  rewrite Hy. simpl. rewrite IH. reflexivity.
Qed.

Lemma elem_of_dict_pop (k : pykey) (d d' : pydict) (e : pykey * pyval) :
  dict_pop k d = Ok d' -> e ∈ d' -> e ∈ d /\ e.1 <> k.
Proof.
  unfold dict_pop. destruct (dict_get k d); [|discriminate].
  intros [= <-] He. apply list_elem_of_filter in He as [Hne He].
  split; [exact He|]. intros Heq. apply Hne. symmetry. exact Heq.
Qed.

Lemma elem_of_dict_set (k : pykey) (v : pyval) (d : pydict)
  (e : pykey * pyval) :
  e ∈ dict_set k v d -> e ∈ d \/ e = (k, v).
Proof.
  induction d as [|[k' v'] d IH]; simpl.
  - rewrite list_elem_of_singleton. auto.
  - destruct (decide (k = k')) as [->|Hne]; rewrite !elem_of_cons.
    + intros [->|He]; auto.
    + intros [->|He]; [auto|]. destruct (IH He); auto.
Qed.

Lemma dict_get_set_eq (k : pykey) (v : pyval) (d : pydict) :
  dict_get k (dict_set k v d) = Some v.
Proof.
  induction d as [|[k' v'] d IH]; simpl.
  - rewrite decide_True; auto.
  - destruct (decide (k = k')) as [->|Hne]; simpl.
    + rewrite decide_True; auto.
    + rewrite decide_False; auto.
Qed.

Lemma dict_get_set_ne (k k0 : pykey) (v : pyval) (d : pydict) :
  k0 <> k -> dict_get k0 (dict_set k v d) = dict_get k0 d.
Proof.
  intros Hne. induction d as [|[k' v'] d IH]; simpl.
  - rewrite decide_False; auto.
  - destruct (decide (k = k')) as [->|Hne']; simpl.
    + rewrite !decide_False; auto.
    + destruct (decide (k0 = k')); auto.
Qed.

(** ** [_copy_user_data_safely] *)

Import BaseEvent.

Lemma copy_unfold (data : pyval) :
  _copy_user_data_safely data =
  (truth ← py_truth data;
   if negb truth || negb (is_container data) then Ok data
   else match data with
        | VList l | VTuple l => VList <$> mapM _copy_user_data_safely l
        | VDict d => VDict <$> copy_entries _copy_user_data_safely d d
        | _ => Ok data
        end).
Proof. destruct data; reflexivity. Qed.

Lemma copy_entries_cons (copy : pyval -> result pyval) key v rest copied :
  copy_entries copy ((key, v) :: rest) copied =
  (value ← copy v;
   match unsupported_key_str key with
   | None => copy_entries copy rest copied
   | Some str_key =>
       popped ← dict_pop key copied;
       s ← str_key;
       copy_entries copy rest (dict_set (KStr s) value popped)
   end).
Proof. reflexivity. Qed.

Lemma copy_dict_cons (e : pykey * pyval) (d : pydict) :
  _copy_user_data_safely (VDict (e :: d))
  = VDict <$> copy_entries _copy_user_data_safely (e :: d) (e :: d).
Proof. reflexivity. Qed.

Lemma copy_list_cons (x : pyval) (l : list pyval) :
  _copy_user_data_safely (VList (x :: l))
  = VList <$> mapM _copy_user_data_safely (x :: l).
Proof. reflexivity. Qed.

Lemma copy_tuple_cons (x : pyval) (l : list pyval) :
  _copy_user_data_safely (VTuple (x :: l))
  = VList <$> mapM _copy_user_data_safely (x :: l).
Proof. reflexivity. Qed.

(** A dict whose keys are all supported comes back as it is, once the copy
    of each value has returned: the copies are dropped. *)
Lemma copy_entries_supported (copy : pyval -> result pyval)
  (entries copied : pydict) :
  Forall (fun e => supported e.1 /\ succeeds (copy e.2)) entries ->
  copy_entries copy entries copied = Ok copied.
Proof.
  induction 1 as [|[k v] entries [Hk [w Hw]] _ IH]; [reflexivity|].
  rewrite copy_entries_cons. simpl in *. rewrite Hw. simpl.
  unfold supported in Hk. rewrite Hk. exact IH.
Qed.

(** The loop returns only if the copy of every value returned. *)
Lemma copy_entries_values_copied (copy : pyval -> result pyval)
  (entries copied out : pydict) :
  copy_entries copy entries copied = Ok out ->
  Forall (fun e => succeeds (copy e.2)) entries.
Proof.
  revert copied. induction entries as [|[k v] entries IH]; intros copied H.
  - constructor.
  - rewrite copy_entries_cons in H. apply bind_Ok in H as (w & Hw & H).
    constructor; [exists w; exact Hw|].
    destruct (unsupported_key_str k) as [str_key|]; [|eauto].
    apply bind_Ok in H as (popped & _ & H).
    apply bind_Ok in H as (s & _ & H). eauto.
Qed.

(** Every key of the result is a supported one, as soon as the unsupported
    keys of the copy are among the entries still to visit. *)
Lemma copy_entries_keys (copy : pyval -> result pyval)
  (entries copied out : pydict) :
  copy_entries copy entries copied = Ok out ->
  (forall e, e ∈ copied -> supported e.1 \/ e.1 ∈ entries.*1) ->
  forall e, e ∈ out -> supported e.1.
Proof.
  revert copied. induction entries as [|[k v] entries IH]; intros copied H Hinv.
  - injection H as <-. intros e He.
    destruct (Hinv e He) as [|Hin]; [assumption|].
    simpl in Hin. by apply elem_of_nil in Hin.
  - rewrite copy_entries_cons in H. apply bind_Ok in H as (w & Hw & H).
    destruct (unsupported_key_str k) as [str_key|] eqn:Hk.
    + apply bind_Ok in H as (popped & Hpop & H).
      apply bind_Ok in H as (s & _ & H).
      apply (IH _ H). intros e He.
      apply elem_of_dict_set in He as [He| ->]; [|left; reflexivity].
      apply (elem_of_dict_pop _ _ _ _ Hpop) in He as [He Hne].
      destruct (Hinv e He) as [|Hin]; [by left|].
      simpl in Hin. apply elem_of_cons in Hin as [Heq|Hin]; [done|by right].
    + apply (IH _ H). intros e He.
      destruct (Hinv e He) as [|Hin]; [by left|].
      simpl in Hin. apply elem_of_cons in Hin as [Heq|Hin]; [|by right].
      left. rewrite Heq. exact Hk.
Qed.

(** Every value of the result is one whose copy returns. *)
Lemma copy_entries_values (copy : pyval -> result pyval)
  (entries copied out : pydict) :
  copy_entries copy entries copied = Ok out ->
  Forall (fun e => forall w, copy e.2 = Ok w -> copy w = Ok w) entries ->
  (forall e, e ∈ copied -> succeeds (copy e.2)) ->
  forall e, e ∈ out -> succeeds (copy e.2).
Proof.
  revert copied.
  induction entries as [|[k v] entries IH]; intros copied H Hfix Hinv.
  - injection H as <-. exact Hinv.
  - rewrite copy_entries_cons in H. apply bind_Ok in H as (w & Hw & H).
    apply Forall_cons in Hfix as [Hv Hfix].
    destruct (unsupported_key_str k) as [str_key|] eqn:Hk.
    + apply bind_Ok in H as (popped & Hpop & H).
      apply bind_Ok in H as (s & _ & H).
      apply (IH _ H Hfix). intros e He.
      apply elem_of_dict_set in He as [He| ->].
      * apply (elem_of_dict_pop _ _ _ _ Hpop) in He as [He _]. auto.
      * exists w. apply Hv. exact Hw.
    + apply (IH _ H Hfix). exact Hinv.
Qed.

(** What [_copy_user_data_safely] returns, it returns unchanged when applied
    again. *)
Lemma copy_fixed (v o : pyval) :
  _copy_user_data_safely v = Ok o -> _copy_user_data_safely o = Ok o.
Proof.
  revert o. induction v as [|b|z|f|s|l IH|l IH|d IH|obj] using pyval_ind;
    intros o H.
  1-5: rewrite copy_unfold in H; simpl in H; rewrite ?orb_true_r in H;
       injection H as <-; rewrite copy_unfold; simpl;
       rewrite ?orb_true_r; reflexivity.
  - (* list *)
    destruct l as [|x l]; [injection H as <-; reflexivity|].
    rewrite copy_list_cons in H. apply fmap_Ok in H as (r & Hr & ->).
    apply mapM_Ok in Hr. destruct r as [|y r]; [inversion Hr|].
    rewrite copy_list_cons, mapM_fixed; [reflexivity|].
    clear -Hr IH. induction Hr as [|a b l' r' Hab _ IHr]; constructor.
    + apply Forall_cons in IH as [Ha _]. auto.
    + apply Forall_cons in IH as [_ Hl]. auto.
  - (* tuple *)
    destruct l as [|x l]; [injection H as <-; reflexivity|].
    rewrite copy_tuple_cons in H. apply fmap_Ok in H as (r & Hr & ->).
    apply mapM_Ok in Hr. destruct r as [|y r]; [inversion Hr|].
    rewrite copy_list_cons, mapM_fixed; [reflexivity|].
    clear -Hr IH. induction Hr as [|a b l' r' Hab _ IHr]; constructor.
    + apply Forall_cons in IH as [Ha _]. auto.
    + apply Forall_cons in IH as [_ Hl]. auto.
  - (* dict *)
    destruct d as [|e d]; [injection H as <-; reflexivity|].
    rewrite copy_dict_cons in H. apply fmap_Ok in H as (out & Hout & ->).
    destruct out as [|e' out']; [reflexivity|].
    rewrite copy_dict_cons, copy_entries_supported; [reflexivity|].
    apply Forall_forall. intros x Hx. split.
    + apply (copy_entries_keys _ _ _ _ Hout); [|exact Hx].
      intros y Hy. right. by apply list_elem_of_fmap_2.
    + apply (copy_entries_values _ _ _ _ Hout); [exact IH| |exact Hx].
      apply Forall_forall. exact (copy_entries_values_copied _ _ _ _ Hout).
  - (* any other object *)
    rewrite copy_unfold in H. simpl in H.
    destruct (obj_bool obj) as [b|e] eqn:Hb; simpl in H; [|discriminate].
    rewrite orb_true_r in H. injection H as <-.
    rewrite copy_unfold. simpl. rewrite Hb. simpl.
    rewrite orb_true_r. reflexivity.
Qed.

(** C9. [_copy_user_data_safely] is idempotent: applying it to its own
    output gives that output again, and where the first application raises,
    so does the composition, with the same exception. *)
Theorem C9_copy_user_data_safely_idempotent (v : pyval) :
  _copy_user_data_safely v ≫= _copy_user_data_safely
  = _copy_user_data_safely v.
Proof.
  destruct (_copy_user_data_safely v) as [o|e] eqn:H; simpl.
  - exact (copy_fixed v o H).
  - reflexivity.
Qed.

(** C5. Under a supported key the value stays as it was: its copy is
    computed and dropped.  So a tuple under the key ['a'] stays a tuple
    (its copy is a list), and a tuple key one level down is not converted;
    at the top level the same key is. *)
Theorem C5_value_under_supported_key_not_copied :
  _copy_user_data_safely (VDict [(KStr "a", VTuple [VInt 1; VInt 2])])
  = Ok (VDict [(KStr "a", VTuple [VInt 1; VInt 2])])
  /\ _copy_user_data_safely (VTuple [VInt 1; VInt 2])
     = Ok (VList [VInt 1; VInt 2])
  /\ _copy_user_data_safely (VDict [(KStr "a", VDict [(key_1_2, VInt 3)])])
     = Ok (VDict [(KStr "a", VDict [(key_1_2, VInt 3)])])
  /\ _copy_user_data_safely (VDict [(key_1_2, VInt 3)])
     = Ok (VDict [(KStr "(1, 2)", VInt 3)]).
Proof. repeat split; vm_compute; reflexivity. Qed.

(** ** The error code *)

Lemma set_error_is_EXCEPTION (self : BaseEvent.t) :
  is_EXCEPTION (set_error self) = is_EXCEPTION self.
Proof.
  unfold set_error.
  destruct (py_eq_int (error_code self) ErrorCode.EXCEPTION) eqn:H; simpl.
  - reflexivity.
  - unfold is_EXCEPTION. rewrite H. reflexivity.
Qed.

(** C3. Once the error code is EXCEPTION, no number of calls of [set_error]
    changes the event; from a code that is not EXCEPTION, [set_error] sets
    ERROR, and no number of calls makes the code EXCEPTION. *)
Theorem C3_error_code_monotonic (self : BaseEvent.t) (n : nat) :
  (is_EXCEPTION self = true -> Nat.iter n set_error self = self)
  /\ (is_EXCEPTION self = false ->
      error_code (set_error self) = VInt ErrorCode.ERROR)
  /\ (is_EXCEPTION self = false ->
      is_EXCEPTION (Nat.iter n set_error self) = false).
Proof.
  split; [|split].
  - intros H. induction n as [|n IH]; simpl; [reflexivity|].
    rewrite IH. unfold set_error. unfold is_EXCEPTION in H. rewrite H.
    reflexivity.
  - intros H. unfold set_error. unfold is_EXCEPTION in H. rewrite H.
    reflexivity.
  - intros H. induction n as [|n IH]; simpl; [exact H|].
    rewrite set_error_is_EXCEPTION. exact IH.
Qed.

Lemma C3_error_code_monotonic_witness :
  Nat.iter 3 set_error (with_error_code (VInt ErrorCode.EXCEPTION) new_event)
  = with_error_code (VInt ErrorCode.EXCEPTION) new_event
  /\ error_code (set_error new_event) = VInt ErrorCode.ERROR
  /\ is_EXCEPTION (Nat.iter 3 set_error new_event) = false.
Proof.
  split; [|split].
  - apply (C3_error_code_monotonic
             (with_error_code (VInt ErrorCode.EXCEPTION) new_event) 3).
    reflexivity.
  - apply (C3_error_code_monotonic new_event 3). reflexivity.
  - apply (C3_error_code_monotonic new_event 3). reflexivity.
Defined.

(** ** The representation *)

Lemma required_key_present (x : gmap string pyval) (k : string) :
  well_formed x -> k ∈ required_keys -> is_Some (x !! k).
Proof.
  intros (ec & _ & Hdom) Hk. apply elem_of_dom. rewrite Hdom.
  destruct (py_eq_int ec ErrorCode.EXCEPTION); [apply elem_of_union_l|];
    exact Hk.
Qed.

Lemma foreign_key_absent (x : gmap string pyval) (k : string) :
  well_formed x ->
  k <> "id" -> k <> "start_time" -> k <> "duration" -> k <> "origin" ->
  k <> "error_code" -> k <> "resource" -> k <> "exception" ->
  x !! k = None.
Proof.
  intros (ec & _ & Hdom) ? ? ? ? ? ? ?. apply not_elem_of_dom.
  rewrite Hdom. intros Hin.
  destruct (py_eq_int ec ErrorCode.EXCEPTION); unfold required_keys in Hin;
    rewrite !elem_of_union, !elem_of_singleton in Hin; intuition.
Qed.

Ltac required_key :=
  unfold required_keys; rewrite !elem_of_union, !elem_of_singleton; auto 10.

Ltac key_case k name :=
  destruct (decide (k = name)) as [->|];
  [ by rewrite ?lookup_insert_eq, ?lookup_singleton_eq
  | rewrite ?lookup_insert_ne, ?lookup_singleton_ne by done ].

(** C8. Loading a representation that has exactly the six required keys,
    and ["exception"] exactly under the code EXCEPTION, and converting the
    event back gives the representation again. *)
Theorem C8_to_dict_load_from_dict (uuid : string) (x : gmap string pyval) :
  well_formed x ->
  to_dict <$> load_from_dict uuid x = Ok x.
Proof.
  intros Hwf.
  destruct (required_key_present x "start_time" Hwf) as [st Hst];
    [required_key|].
  destruct (required_key_present x "id" Hwf) as [id Hid]; [required_key|].
  destruct (required_key_present x "origin" Hwf) as [o Ho]; [required_key|].
  destruct (required_key_present x "duration" Hwf) as [d Hd];
    [required_key|].
  destruct (required_key_present x "resource" Hwf) as [r Hr];
    [required_key|].
  pose proof (foreign_key_absent x) as Hforeign.
  destruct Hwf as (ec & Hec & Hdom).
  unfold load_from_dict, getitem.
  rewrite Hst, Hid, Ho, Hd, Hec, Hr. simpl.
  destruct (py_eq_int ec ErrorCode.EXCEPTION) eqn:Hexc.
  - assert (is_Some (x !! "exception")) as [ex Hex].
    { apply elem_of_dom. rewrite Hdom. apply elem_of_union_r.
      by apply elem_of_singleton. }
    rewrite Hex. simpl. f_equal. unfold to_dict. simpl. rewrite Hexc.
    apply map_eq. intros k.
    key_case k "exception". key_case k "id". key_case k "start_time".
    key_case k "duration". key_case k "origin". key_case k "error_code".
    key_case k "resource".
    symmetry. apply Hforeign; [exists ec; by rewrite Hexc|done..].
  - simpl. f_equal. unfold to_dict. simpl. rewrite Hexc.
    apply map_eq. intros k.
    key_case k "id". key_case k "start_time".
    key_case k "duration". key_case k "origin". key_case k "error_code".
    key_case k "resource".
    destruct (decide (k = "exception")) as [->|].
    + symmetry. apply not_elem_of_dom. rewrite Hdom. unfold required_keys.
      rewrite !elem_of_union, !elem_of_singleton. intuition discriminate.
    + symmetry. apply Hforeign; [exists ec; by rewrite Hexc|done..].
Qed.

Lemma C8_to_dict_load_from_dict_witness :
  to_dict <$> load_from_dict "" exception_representation
  = Ok exception_representation.
Proof.
  apply (C8_to_dict_load_from_dict "" exception_representation).
  exists (VInt 2). split; [reflexivity|].
  change (py_eq_int (VInt 2) ErrorCode.EXCEPTION) with true. cbv iota.
  apply set_eq. intros k. unfold exception_representation, required_keys.
  rewrite !dom_insert, dom_empty.
  rewrite !elem_of_union, !elem_of_singleton, elem_of_empty.
  intuition.
Defined.

(** C8 as stated fails: a dict that contains the required keys, and
    ["exception"] exactly under the code EXCEPTION, may hold another key,
    which the round trip loses. *)
Lemma C8_counterexample :
  contains_required_keys traced_representation
  /\ to_dict <$> load_from_dict "" traced_representation
     <> Ok traced_representation.
Proof.
  split.
  - split.
    + intros k Hk. unfold required_keys in Hk.
      rewrite !elem_of_union, !elem_of_singleton in Hk.
      destruct Hk as [[[[[->| ->]| ->]| ->]| ->]| ->];
        eexists; vm_compute; reflexivity.
    + exists (VInt 2). split; [vm_compute; reflexivity|].
      split; [reflexivity|]. intros _. eexists. vm_compute. reflexivity.
  - intros H.
    apply (f_equal (fun r => match r with
                             | Ok m => m !! "trace"
                             | Raise _ => None
                             end)) in H.
    vm_compute in H. discriminate.
Qed.

(** ** [set_exception] *)

Lemma collect_frames_lookup (trace : list FrameInfo) (acc : pydict)
  (k : string) :
  dict_get (KStr k)
    (fold_left
       (fun frames frame =>
          if keep_frame frame
          then dict_set (KStr (frame_key frame)) (locals_dict frame) frames
          else frames)
       trace acc)
  = match last_kept k trace with
    | Some frame => Some (locals_dict frame)
    | None => dict_get (KStr k) acc
    end.
Proof.
  revert acc. induction trace as [|frame rest IH]; intros acc; simpl.
  - reflexivity.
  - rewrite IH. destruct (last_kept k rest) as [frame'|]; [reflexivity|].
    destruct (keep_frame frame); simpl; [|reflexivity].
    destruct (bool_decide_reflect (frame_key frame = k)) as [<-|Hne].
    + apply dict_get_set_eq.
    + apply dict_get_set_ne. congruence.
Qed.

Lemma last_kept_Some (k : string) (trace : list FrameInfo) (frame : FrameInfo) :
  last_kept k trace = Some frame ->
  frame ∈ trace /\ keep_frame frame = true /\ frame_key frame = k.
Proof.
  induction trace as [|f rest IH]; simpl; [discriminate|].
  destruct (last_kept k rest) as [frame'|].
  - intros [= <-]. destruct (IH eq_refl) as (? & ? & ?).
    split; [apply elem_of_cons; by right|auto].
  - destruct (keep_frame f) eqn:Hkeep; simpl; [|discriminate].
    destruct (bool_decide_reflect (frame_key f = k)) as [Hk|]; [|discriminate].
    intros [= <-]. split; [apply elem_of_cons; by left|auto].
Qed.

Lemma last_kept_None (k : string) (trace : list FrameInfo) (frame : FrameInfo) :
  last_kept k trace = None ->
  frame ∈ trace -> keep_frame frame = true -> frame_key frame <> k.
Proof.
  induction trace as [|f rest IH]; simpl; intros H Hin Hkeep.
  - by apply elem_of_nil in Hin.
  - destruct (last_kept k rest) as [frame'|]; [discriminate|].
    apply elem_of_cons in Hin as [->|Hin]; [|auto].
    rewrite Hkeep in H. simpl in H.
    destruct (bool_decide_reflect (frame_key f = k)); [discriminate|assumption].
Qed.

Lemma collect_frames_str_keys (trace : list FrameInfo) (acc : pydict) :
  (forall e, e ∈ acc -> exists k, e.1 = KStr k) ->
  forall e,
    e ∈ fold_left
          (fun frames frame =>
             if keep_frame frame
             then dict_set (KStr (frame_key frame)) (locals_dict frame) frames
             else frames)
          trace acc ->
    exists k, e.1 = KStr k.
Proof.
  revert acc. induction trace as [|frame rest IH]; intros acc Hacc; simpl.
  - exact Hacc.
  - apply IH. destruct (keep_frame frame); [|exact Hacc].
    intros e He. apply elem_of_dict_set in He as [He| ->]; [auto|].
    simpl. eauto.
Qed.

(** A dict whose keys are all supported is returned unchanged. *)
Lemma copy_supported_dict (d : pydict) (v : pyval) :
  Forall (fun e => supported e.1) d ->
  _copy_user_data_safely (VDict d) = Ok v -> v = VDict d.
Proof.
  intros Hd H. destruct d as [|e d]; [by injection H as <-|].
  rewrite copy_dict_cons in H. apply fmap_Ok in H as (out & Hout & ->).
  pose proof (copy_entries_values_copied _ _ _ _ Hout) as Hvals.
  rewrite copy_entries_supported in Hout; [congruence|].
  apply Forall_forall. intros x Hx. split.
  - rewrite Forall_forall in Hd. auto.
  - rewrite Forall_forall in Hvals. auto.
Qed.

Lemma copy_locals_dict (frame : FrameInfo) (v : pyval) :
  _copy_user_data_safely (locals_dict frame) = Ok v -> v = locals_dict frame.
Proof.
  apply copy_supported_dict. apply Forall_forall. intros x Hx.
  apply list_elem_of_fmap in Hx as (y & -> & _). reflexivity.
Qed.

(** What [set_exception] leaves behind when it returns. *)
Lemma set_exception_inv (env : Env) (exc : pyobj) (tb : pyval)
  (handled from_logs : bool) (self self' : BaseEvent.t) :
  set_exception env exc tb handled from_logs self = (Ok tt, self') ->
  exists payload,
    exception self' = VDict payload /\
    (SHOULD_REMOVE_EXCEPTION_FRAMES env = false -> version_major env = 3 ->
     dict_get (KStr "frames") payload
     = Some (VDict (collect_frames (inspect_trace env)))).
Proof.
  unfold set_exception, bind, setitem_exception, lift, ret. simpl.
  destruct (exception self) as [| | | | | | |d|] eqn:Hd; simpl;
    try discriminate.
  destruct (obj_str exc) as [message|e]; simpl; [|discriminate].
  destruct (_copy_user_data_safely tb) as [traceback|e]; simpl; [|discriminate].
  destruct (SHOULD_REMOVE_EXCEPTION_FRAMES env); simpl;
    destruct (version_major env =? 3) eqn:Hv; simpl;
    (destruct (dict_get _ _) as [[| | | | | | |a|]|] eqn:Had; simpl;
     try discriminate);
    destruct from_logs; simpl; rewrite ?dict_get_set_eq; simpl.
  all: intros [= <-]; simpl; eexists; (split; [reflexivity|]).
  all: try (intros [=]; fail).
  all: try (intros _ Hm; apply Z.eqb_neq in Hv; contradiction).
  all: intros _ _; repeat (rewrite dict_get_set_ne by discriminate);
       apply dict_get_set_eq.
Qed.




(** C6. With frame collection enabled, [set_exception] records under
    ["frames"] a dict keyed by strings; its keys are the keys
    [file/function/line] of the frames kept (file name without ['/epsagon'],
    locals not empty); each key is mapped to the locals of the last frame
    kept that has this key, stored as they are, which is also what
    [_copy_user_data_safely] returns for them whenever it returns. *)
Theorem C6_frames_last_frame_per_key (env : Env) (exc : pyobj) (tb : pyval)
  (handled from_logs : bool) (self self' : BaseEvent.t) :
  SHOULD_REMOVE_EXCEPTION_FRAMES env = false ->
  version_major env = 3 ->
  set_exception env exc tb handled from_logs self = (Ok tt, self') ->
  exists payload frames,
    exception self' = VDict payload
    /\ dict_get (KStr "frames") payload = Some (VDict frames)
    /\ (forall e, e ∈ frames -> exists k, e.1 = KStr k)
    /\ (forall k,
          is_Some (dict_get (KStr k) frames) <->
          exists frame,
            frame ∈ inspect_trace env /\ keep_frame frame = true
            /\ frame_key frame = k)
    /\ (forall k,
          dict_get (KStr k) frames
          = locals_dict <$> last_kept k (inspect_trace env))
    /\ (forall frame v,
          _copy_user_data_safely (locals_dict frame) = Ok v ->
          v = locals_dict frame).
Proof.
  intros Hremove Hmajor H.
  destruct (set_exception_inv _ _ _ _ _ _ _ H) as (payload & Hp & Hframes).
  exists payload, (collect_frames (inspect_trace env)).
  assert (forall k,
            dict_get (KStr k) (collect_frames (inspect_trace env))
            = locals_dict <$> last_kept k (inspect_trace env)) as Hlookup.
  { intros k. unfold collect_frames. rewrite collect_frames_lookup.
    destruct (last_kept k (inspect_trace env)); reflexivity. }
  split; [exact Hp|]. split; [auto|]. split; [|split; [|split]].
  - apply collect_frames_str_keys. intros e He. by apply elem_of_nil in He.
  - intros k. rewrite Hlookup. split.
    + intros [v Hv].
      destruct (last_kept k (inspect_trace env)) as [frame|] eqn:Hlast;
        [|discriminate].
      exists frame. by apply last_kept_Some.
    + intros (frame & Hin & Hkeep & Hkey).
      destruct (last_kept k (inspect_trace env)) as [frame'|] eqn:Hlast;
        [by eexists|].
      by destruct (last_kept_None _ _ _ Hlast Hin Hkeep).
  - exact Hlookup.
  - exact copy_locals_dict.
Qed.

(** C6 on the trace of a recursive function. *)
Lemma C6_frames_last_frame_per_key_witness :
  exists payload frames,
    exception
      (set_exception recursive_env nameless_error (VStr "tb") true false
         new_event).2 = VDict payload
    /\ dict_get (KStr "frames") payload = Some (VDict frames)
    /\ (forall e, e ∈ frames -> exists k, e.1 = KStr k)
    /\ (forall k,
          is_Some (dict_get (KStr k) frames) <->
          exists frame,
            frame ∈ recursive_trace /\ keep_frame frame = true
            /\ frame_key frame = k)
    /\ (forall k,
          dict_get (KStr k) frames
          = locals_dict <$> last_kept k recursive_trace)
    /\ (forall frame v,
          _copy_user_data_safely (locals_dict frame) = Ok v ->
          v = locals_dict frame).
Proof.
  apply (C6_frames_last_frame_per_key recursive_env nameless_error (VStr "tb")
           true false new_event); reflexivity.
Defined.

(** The locals are stored without being copied: here their copy would
    raise, and [set_exception] returns with the frame recorded. *)
Example frame_recorded_uncopied :
  _copy_user_data_safely (locals_dict token_frame)
  = Raise (Exn (OtherException "NotImplementedError") "")
  /\ (set_exception token_env nameless_error (VStr "tb") true false
        new_event).1 = Ok tt
  /\ collect_frames (inspect_trace token_env)
     = [(KStr "/app/auth.py/check/7", locals_dict token_frame)].
Proof. repeat split; reflexivity. Qed.

(** C6 as stated fails: of two kept frames with the same key, the first is
    not in the dict. *)
Lemma C6_counterexample :
  outer_frame ∈ inspect_trace recursive_env
  /\ keep_frame outer_frame = true
  /\ _copy_user_data_safely (locals_dict outer_frame)
     = Ok (locals_dict outer_frame)
  /\ (set_exception recursive_env nameless_error (VStr "tb") true false
        new_event).1 = Ok tt
  /\ exists payload frames,
       exception
         (set_exception recursive_env nameless_error (VStr "tb") true false
            new_event).2 = VDict payload
       /\ dict_get (KStr "frames") payload = Some (VDict frames)
       /\ dict_get (KStr (frame_key outer_frame)) frames
          <> Some (locals_dict outer_frame).
Proof.
  split; [apply elem_of_cons; by left|].
  split; [reflexivity|]. split; [reflexivity|]. split; [reflexivity|].
  eexists. eexists. split; [reflexivity|]. split; [reflexivity|].
  vm_compute. discriminate.
Qed.

(** ** The requests events *)

Import Requests.

(** The call [super(RequestsEvent, self).__init__()] lacks [start_time]. *)
Lemma RequestsEvent__init__raises (cls : event_class) (uuid_trace uuid : string)
  (wrapped instance : pyval) (args : list PreparedRequest) (kwargs : pyval)
  (response : option Response) (exception : option pyobj) :
  RequestsEvent__init__ cls uuid_trace uuid wrapped instance args kwargs
    response exception
  = Raise (Exn TypeError arity_message).
Proof. reflexivity. Qed.

Lemma init_raises (cls : event_class) (uuid_trace uuid : string)
  (wrapped instance : pyval) (args : list PreparedRequest) (kwargs : pyval)
  (response : option Response) (exception : option pyobj) :
  Requests.__init__ cls uuid_trace uuid wrapped instance args kwargs
    response exception
  = Raise (Exn TypeError arity_message).
Proof. reflexivity. Qed.

(** Whatever the constructor and [add_event] do, the [try] statement
    returns. *)
Lemma try_create_returns
  (super_add_event : Requests.t -> World -> result unit * World)
  (instance_type : event_class) (uuid_trace uuid : string)
  (wrapped instance : pyval) (args : list PreparedRequest) (kwargs : pyval)
  (response : option Response) (exception : option pyobj) (w : World) :
  (try_create super_add_event instance_type uuid_trace uuid wrapped instance
     args kwargs response exception w).1 = Ok tt.
Proof.
  unfold try_create.
  destruct (Requests.__init__ _ _ _ _ _ _ _ _ _) as [event|e];
    [|reflexivity].
  destruct (add_event super_add_event event w) as [[[]|e] w']; reflexivity.
Qed.

Lemma try_create_handler
  (super_add_event : Requests.t -> World -> result unit * World)
  (instance_type : event_class) (uuid_trace uuid : string)
  (wrapped instance : pyval) (args : list PreparedRequest) (kwargs : pyval)
  (response : option Response) (exception : option pyobj) (w : World) :
  try_create super_add_event instance_type uuid_trace uuid wrapped instance
    args kwargs response exception w
  = handler (Exn TypeError arity_message) w.
Proof. reflexivity. Qed.

(** C1. The [try] statement of [create_event] returns whatever happens in
    it, but the statements before it are not guarded: a request object
    without [url], or an empty [args], makes [create_event] raise. *)
Theorem C1_failure_before_try_propagates :
  (forall super_add_event instance_type uuid_trace uuid wrapped instance args
          kwargs response exception w,
      (try_create super_add_event instance_type uuid_trace uuid wrapped
         instance args kwargs response exception w).1 = Ok tt)
  /\ create_event factory "" "" VNone VNone [request_without_url] VNone
       None None quiet
     = (Raise (Exn AttributeError "object has no attribute 'url'"), quiet)
  /\ create_event factory "" "" VNone VNone [] VNone None None quiet
     = (Raise (Exn IndexError "list index out of range"), quiet).
Proof.
  split; [|split].
  - intros. apply try_create_returns.
  - reflexivity.
  - reflexivity.
Qed.

(** C2. Every construction raises the [TypeError] of the call
    [BaseEvent.__init__()], so the [try] statement of [create_event] always
    runs its handler, and [create_event] emits an event on no input.  But
    [create_event] does not always get to its [try]: with a request object
    that has no [url] it raises before, and the handler never runs. *)
Theorem C2_try_runs_handler :
  (forall cls uuid_trace uuid wrapped instance args kwargs response exception,
      Requests.__init__ cls uuid_trace uuid wrapped instance args kwargs
        response exception
      = Raise (Exn TypeError arity_message))
  /\ (forall super_add_event instance_type uuid_trace uuid wrapped instance
            args kwargs response exception w,
        try_create super_add_event instance_type uuid_trace uuid wrapped
          instance args kwargs response exception w
        = (Ok tt,
           print ("Epsagon Error: Could not create requests event: "
                  +:+ arity_message) w))
  /\ (forall factory_iter uuid_trace uuid wrapped instance args kwargs
            response exception w,
        emitted
          (create_event factory_iter uuid_trace uuid wrapped instance args
             kwargs response exception w).2
        = emitted w)
  /\ create_event factory "" "" VNone VNone [request_without_url] VNone None
       None quiet
     = (Raise (Exn AttributeError "object has no attribute 'url'"), quiet).
Proof.
  split; [|split; [|split]].
  - intros. apply init_raises.
  - intros. rewrite try_create_handler. reflexivity.
  - intros. unfold create_event.
    destruct (resolve factory_iter args) as [instance_type|e]; [|reflexivity].
    rewrite try_create_handler. reflexivity.
  - reflexivity.
Qed.

(** The choice of the class does not depend on the order in which the
    factory yields its keys, when one key only matches the host. *)
Lemma select_instance_type_unique (l : list (string * event_class))
  (base_url : string) (cls : event_class) :
  (exists e, e ∈ l /\ PyStr.contains e.1 (PyStr.lower base_url) = true) ->
  (forall e, e ∈ l -> PyStr.contains e.1 (PyStr.lower base_url) = true ->
             e.2 = cls) ->
  select_instance_type l base_url = cls.
Proof.
  unfold select_instance_type.
  assert (forall acc,
             (forall e, e ∈ l ->
                        PyStr.contains e.1 (PyStr.lower base_url) = true ->
                        e.2 = cls) ->
             (acc = cls \/
              exists e, e ∈ l /\
                        PyStr.contains e.1 (PyStr.lower base_url) = true) ->
             fold_left
               (fun instance_type entry =>
                  if PyStr.contains entry.1 (PyStr.lower base_url)
                  then entry.2 else instance_type) l acc = cls) as Hgen.
  { induction l as [|e l IH]; intros acc Hall Hacc; simpl.
    - destruct Hacc as [|(e & He & _)]; [assumption|].
      by apply elem_of_nil in He.
    - apply IH.
      + intros e' He'. apply Hall. apply elem_of_cons. by right.
      + destruct (PyStr.contains e.1 (PyStr.lower base_url)) eqn:Hm.
        * left. apply Hall; [apply elem_of_cons; by left|exact Hm].
        * destruct Hacc as [|(e' & He' & Hm')]; [by left|].
          apply elem_of_cons in He' as [->|He']; [congruence|].
          right. eauto. }
  intros Hex Hall. apply Hgen; auto.
Qed.

Lemma twilio_selected (factory_iter : list (string * event_class)) :
  Permutation factory_iter factory ->
  resolve factory_iter [twilio_request] = Ok RequestsTwilioEvent.
Proof.
  intros Hperm. unfold resolve.
  change (PyStr.item [twilio_request] 0) with (Ok twilio_request).
  change (Ok twilio_request ≫= _) with
    (Ok (A:=event_class) (select_instance_type factory_iter "api.twilio.com")).
  f_equal. apply select_instance_type_unique.
  - exists ("twilio", RequestsTwilioEvent). split; [|reflexivity].
    rewrite Hperm. unfold factory. simpl. set_solver.
  - intros e He. rewrite Hperm in He. unfold factory in He. simpl in He.
    rewrite !elem_of_cons in He.
    destruct He as [->|[->|[->|[->|He]]]]; simpl; try discriminate;
      [reflexivity|by apply elem_of_nil in He].
Qed.

(** C7. For the Twilio URL the class chosen is [RequestsTwilioEvent], and
    the last segment of the path is ["Messages.json"]; but the constructor
    raises before it gets there, and [create_event] prints the error and
    emits nothing. *)
Theorem C7_twilio_event_not_constructed :
  resolve factory [twilio_request] = Ok RequestsTwilioEvent
  /\ PyStr.last_item
       (PyStr.split "/" "/2010-04-01/Accounts/AC123/Messages.json")
     = Ok "Messages.json"
  /\ Requests.__init__ RequestsTwilioEvent "" "" VNone VNone [twilio_request]
       VNone None None
     = Raise (Exn TypeError arity_message)
  /\ create_event factory "" "" VNone VNone [twilio_request] VNone None None
       quiet
     = (Ok tt,
        {| stdout :=
             ["Epsagon Error: Could not create requests event: "
              +:+ arity_message];
           emitted := [] |}).
Proof. repeat split; reflexivity. Qed.

(** The [metadata] of an event the constructor body returns come from the
    request. *)
Lemma init_body_metadata (cls : event_class) (uuid : string)
  (self_base : BaseEvent.t) (args : list PreparedRequest)
  (response : option Response) (exception : option pyobj) (self : Requests.t) :
  init_body cls uuid self_base args response exception = Ok self ->
  exists req u,
    args !! 0%nat = Some req /\ url req = Some u
    /\ metadata self !! "url" = Some (VStr u)
    /\ metadata self !! "method" = method req
    /\ metadata self !! "request_body" = body req.
Proof.
  unfold init_body, PyStr.item. intros H.
  destruct (args !! 0%nat) as [req|]; simpl in H; [|discriminate].
  destruct (method req) as [m|] eqn:Hm; simpl in H; [|discriminate].
  destruct (url req) as [u|] eqn:Hu; simpl in H; [|discriminate].
  destruct (body req) as [b|] eqn:Hb; simpl in H; [|discriminate].
  exists req, u. split; [reflexivity|]. split; [exact Hu|].
  rewrite Hm, Hb.
  apply bind_Ok in H as (self1 & H1 & H).
  assert (metadata self = metadata self1) as ->.
  { injection H as <-. destruct exception; reflexivity. }
  destruct response as [r|].
  - unfold update_response in H1. apply bind_Ok in H1 as (md & Hmd & H1).
    assert (metadata self1 = md) as ->.
    { injection H1 as <-. destruct (300 <=? status_code r); reflexivity. }
    destruct (json r) as [v|e]; simpl in Hmd.
    + injection Hmd as <-. by simplify_map_eq.
    + destruct (is_ValueError (exn_class e)); [|discriminate].
      injection Hmd as <-. by simplify_map_eq.
  - injection H1 as <-. simpl. by simplify_map_eq.
Qed.

Example denied_event_built :
  init_body RequestsEvent "" new_event [token_request] None None
  = Ok denied_event.
Proof. reflexivity. Qed.

(** No event is ever constructed. *)
Lemma init_never_returns (cls : event_class) (uuid_trace uuid : string)
  (wrapped instance : pyval) (args : list PreparedRequest) (kwargs : pyval)
  (response : option Response) (exception : option pyobj)
  (self : Requests.t) :
  Requests.__init__ cls uuid_trace uuid wrapped instance args kwargs
    response exception <> Ok self.
Proof. rewrite init_raises. discriminate. Qed.

(** C10. [add_event] on an event whose url is deny-listed returns at once:
    the superclass method is not called, nothing is emitted or printed.  But
    no event is ever constructed: for the deny-listed request, as for every
    other, the constructor raises, [create_event] prints the error and
    [add_event] is not reached. *)
Theorem C10_deny_listed_event_not_constructed
  (super_add_event : Requests.t -> World -> result unit * World) (w : World) :
  (forall self u,
      metadata self !! "url" = Some (VStr u) ->
      u ∈ BLACKLIST_URLS ->
      add_event super_add_event self w = (Ok tt, w))
  /\ (forall cls uuid_trace uuid wrapped instance args kwargs response
            exception self,
        Requests.__init__ cls uuid_trace uuid wrapped instance args kwargs
          response exception <> Ok self)
  /\ Requests.__init__ RequestsEvent "" "" VNone VNone [token_request] VNone
       None None
     = Raise (Exn TypeError arity_message)
  /\ create_event factory "" "" VNone VNone [token_request] VNone None None
       quiet
     = (Ok tt,
        print ("Epsagon Error: Could not create requests event: "
               +:+ arity_message) quiet).
Proof.
  split; [|split; [|split]].
  - intros self u Hu Hin. unfold add_event. rewrite Hu.
    unfold BLACKLIST_URLS in *. apply list_elem_of_singleton in Hin as ->.
    reflexivity.
  - intros. apply init_never_returns.
  - reflexivity.
  - reflexivity.
Qed.

(** C10 at an event with the deny-listed url, with a superclass method that
    would emit it. *)
Lemma C10_deny_listed_event_not_constructed_witness :
  add_event emitting_add_event denied_event quiet = (Ok tt, quiet).
Proof.
  apply (proj1 (C10_deny_listed_event_not_constructed emitting_add_event
                  quiet)
           denied_event "https://accounts.google.com/o/oauth2/token").
  - reflexivity.
  - apply list_elem_of_singleton. reflexivity.
Defined.

(** ** Further properties of the event *)

(** X1. A second [terminate] does nothing: two calls in a row behave as the
    first alone, whatever the clock says at the second, and also when the
    first raises. *)
Theorem X1_terminate_twice (sub : pyval -> pyval -> result pyval)
  (env1 env2 : Env) (self : BaseEvent.t) :
  bind (terminate sub env1) (fun _ => terminate sub env2) self
  = terminate sub env1 self.
Proof.
  unfold bind, terminate.
  destruct (terminated self) eqn:Ht; simpl.
  - rewrite Ht. reflexivity.
  - destruct (sub _ _); reflexivity.
Qed.

Lemma keeps_identity_refl (self : BaseEvent.t) : keeps_identity self self.
Proof. unfold keeps_identity. auto. Qed.

(** X2. No method changes [start_time], [event_id], [origin] or [resource],
    and none resets [terminated]; this holds for [set_exception] and
    [terminate] also when they raise. *)
Theorem X2_identity_fields_kept (sub : pyval -> pyval -> result pyval)
  (env : Env) (exc : pyobj) (tb : pyval) (handled from_logs : bool)
  (self : BaseEvent.t) :
  keeps_identity self (BaseEvent.set_error self)
  /\ keeps_identity self (terminate sub env self).2
  /\ keeps_identity self (set_exception env exc tb handled from_logs self).2.
Proof.
  split; [|split].
  - unfold BaseEvent.set_error. destruct (negb _); [|apply keeps_identity_refl].
    unfold keeps_identity. simpl. auto.
  - unfold terminate. destruct (negb _); [|apply keeps_identity_refl].
    destruct (sub _ _); [|apply keeps_identity_refl].
    unfold keeps_identity. simpl. auto.
  - unfold set_exception, bind, setitem_exception, lift, ret. simpl.
    destruct (exception self) as [| | | | | | |d|]; simpl;
      try (unfold keeps_identity; simpl; auto; fail).
    destruct (obj_str exc) as [message|e]; simpl;
      [|unfold keeps_identity; simpl; auto].
    destruct (_copy_user_data_safely tb) as [traceback|e]; simpl;
      [|unfold keeps_identity; simpl; auto].
    destruct (SHOULD_REMOVE_EXCEPTION_FRAMES env); simpl;
      destruct (version_major env =? 3); simpl;
      (destruct (dict_get _ _) as [[| | | | | | |a|]|]; simpl);
      destruct from_logs; simpl; rewrite ?dict_get_set_eq; simpl;
      unfold keeps_identity; simpl; auto.
Qed.

(** X3. Whatever comes before and however it ends, [set_exception] leaves
    the code EXCEPTION, and a [set_error] after it changes nothing. *)
Theorem X3_set_exception_wins (env : Env) (exc : pyobj) (tb : pyval)
  (handled from_logs : bool) (self : BaseEvent.t) :
  is_EXCEPTION (set_exception env exc tb handled from_logs self).2 = true
  /\ BaseEvent.set_error (set_exception env exc tb handled from_logs self).2
     = (set_exception env exc tb handled from_logs self).2.
Proof.
  assert (is_EXCEPTION (set_exception env exc tb handled from_logs self).2
          = true) as H.
  { unfold set_exception, bind, setitem_exception, lift, ret. simpl.
    destruct (exception self) as [| | | | | | |d|]; simpl;
      try (reflexivity; fail).
    destruct (obj_str exc) as [message|e]; simpl; [|reflexivity].
    destruct (_copy_user_data_safely tb) as [traceback|e]; simpl;
      [|reflexivity].
    destruct (SHOULD_REMOVE_EXCEPTION_FRAMES env); simpl;
      destruct (version_major env =? 3); simpl;
      (destruct (dict_get _ _) as [[| | | | | | |a|]|]; simpl);
      destruct from_logs; simpl; rewrite ?dict_get_set_eq; reflexivity. }
  split; [exact H|].
  unfold BaseEvent.set_error. unfold is_EXCEPTION in H. rewrite H. reflexivity.
Qed.

(** ** Further properties of the representation *)

Lemma to_dict_lookup (self : BaseEvent.t) (k : string) :
  to_dict self !! k =
  if decide (k = "exception") then
    if is_EXCEPTION self then Some (exception self) else None
  else if decide (k = "id") then Some (event_id self)
  else if decide (k = "start_time") then Some (start_time self)
  else if decide (k = "duration") then Some (duration self)
  else if decide (k = "origin") then Some (origin self)
  else if decide (k = "error_code") then Some (error_code self)
  else if decide (k = "resource") then Some (resource self)
  else None.
Proof.
  unfold to_dict, is_EXCEPTION.
  destruct (py_eq_int (error_code self) ErrorCode.EXCEPTION);
    repeat case_decide; subst; simplify_map_eq; reflexivity.
Qed.

(** X4. [to_dict] always gives a well-formed representation. *)
Theorem X4_to_dict_well_formed (self : BaseEvent.t) :
  well_formed (to_dict self).
Proof.
  exists (error_code self). split; [by rewrite to_dict_lookup|].
  apply set_eq. intros k. rewrite elem_of_dom, to_dict_lookup.
  fold (is_EXCEPTION self). unfold required_keys.
  destruct (is_EXCEPTION self);
    rewrite !elem_of_union, !elem_of_singleton;
    repeat case_decide; subst; split;
    try (intros [? ?]; discriminate); try (intros _; eauto; fail);
    intuition (eauto; congruence).
Qed.

(** X5. Loading the representation of an event gives the event back, but
    for [terminated], which is reset, and for the exception payload of an
    event whose code is not EXCEPTION, which is emptied. *)
Theorem X5_load_from_dict_to_dict (uuid : string) (self : BaseEvent.t) :
  load_from_dict uuid (to_dict self) = Ok (reloaded self).
Proof.
  unfold load_from_dict, getitem. rewrite !to_dict_lookup. simpl.
  unfold reloaded, is_EXCEPTION.
  destruct (py_eq_int (error_code self) ErrorCode.EXCEPTION); reflexivity.
Qed.

Lemma getitem_Ok (x : gmap string pyval) (k : string) (v : pyval) :
  getitem x k = Ok v <-> x !! k = Some v.
Proof.
  unfold getitem. destruct (x !! k); split; intros H; congruence.
Qed.

Lemma getitem_Raise (x : gmap string pyval) (k : string) (e : pyexn) :
  getitem x k = Raise e -> e = Exn KeyError k /\ x !! k = None.
Proof.
  unfold getitem. destruct (x !! k); [discriminate|].
  intros [= <-]. auto.
Qed.

(** X6. [load_from_dict] returns exactly when the six required keys are
    there and, under the code EXCEPTION, the key ["exception"] too. *)
Theorem X6_load_from_dict_returns_iff (uuid : string)
  (x : gmap string pyval) :
  succeeds (load_from_dict uuid x) <->
  (forall k, k ∈ required_keys -> is_Some (x !! k))
  /\ (forall ec, x !! "error_code" = Some ec ->
                 py_eq_int ec ErrorCode.EXCEPTION = true ->
                 is_Some (x !! "exception")).
Proof.
  split.
  - intros [event H]. unfold load_from_dict in H.
    apply bind_Ok in H as (st & Hst & H). apply bind_Ok in H as (id & Hid & H).
    apply bind_Ok in H as (o & Ho & H). apply bind_Ok in H as (d & Hd & H).
    apply bind_Ok in H as (ec & Hec & H). apply bind_Ok in H as (r & Hr & H).
    apply getitem_Ok in Hst, Hid, Ho, Hd, Hec, Hr. simpl in H. split.
    + intros k Hk. unfold required_keys in Hk.
      rewrite !elem_of_union, !elem_of_singleton in Hk.
      destruct Hk as [[[[[->| ->]| ->]| ->]| ->]| ->]; eauto.
    + intros ec' Hec' Hexc. rewrite Hec in Hec'. injection Hec' as <-.
      rewrite Hexc in H. apply bind_Ok in H as (ex & Hex & _).
      apply getitem_Ok in Hex. eauto.
  - intros [Hreq Hexc].
    destruct (Hreq "start_time") as [st Hst]; [required_key|].
    destruct (Hreq "id") as [id Hid]; [required_key|].
    destruct (Hreq "origin") as [o Ho]; [required_key|].
    destruct (Hreq "duration") as [d Hd]; [required_key|].
    destruct (Hreq "error_code") as [ec Hec]; [required_key|].
    destruct (Hreq "resource") as [r Hr]; [required_key|].
    unfold load_from_dict, getitem. rewrite Hst, Hid, Ho, Hd, Hec, Hr. simpl.
    destruct (py_eq_int ec ErrorCode.EXCEPTION) eqn:Hc; [|by eexists].
    destruct (Hexc ec Hec Hc) as [ex Hex]. rewrite Hex. by eexists.
Qed.

(** X7. When [load_from_dict] raises, it is a [KeyError] whose message is a
    key that is missing, one of the seven the code reads. *)
Theorem X7_load_from_dict_raises_KeyError (uuid : string)
  (x : gmap string pyval) (e : pyexn) :
  load_from_dict uuid x = Raise e ->
  exn_class e = KeyError
  /\ x !! exn_message e = None
  /\ (exn_message e ∈ required_keys \/ exn_message e = "exception").
Proof.
  unfold load_from_dict. intros H.
  destruct (getitem x "start_time") eqn:H1; simpl in H;
    [|injection H as <-; apply getitem_Raise in H1 as [-> ?];
      split; [done|split; [done|left; required_key]]].
  destruct (getitem x "id") eqn:H2; simpl in H;
    [|injection H as <-; apply getitem_Raise in H2 as [-> ?];
      split; [done|split; [done|left; required_key]]].
  destruct (getitem x "origin") eqn:H3; simpl in H;
    [|injection H as <-; apply getitem_Raise in H3 as [-> ?];
      split; [done|split; [done|left; required_key]]].
  destruct (getitem x "duration") eqn:H4; simpl in H;
    [|injection H as <-; apply getitem_Raise in H4 as [-> ?];
      split; [done|split; [done|left; required_key]]].
  destruct (getitem x "error_code") eqn:H5; simpl in H;
    [|injection H as <-; apply getitem_Raise in H5 as [-> ?];
      split; [done|split; [done|left; required_key]]].
  destruct (getitem x "resource") eqn:H6; simpl in H;
    [|injection H as <-; apply getitem_Raise in H6 as [-> ?];
      split; [done|split; [done|left; required_key]]].
  destruct (py_eq_int _ _); [|discriminate].
  destruct (getitem x "exception") eqn:H7; simpl in H; [discriminate|].
  injection H as <-. apply getitem_Raise in H7 as [-> ?]. auto.
Qed.

(** X8. [load_from_dict] reads its seven keys only: an entry under any
    other key changes nothing. *)
Theorem X8_load_from_dict_ignores_other_keys (uuid : string)
  (x : gmap string pyval) (k : string) (v : pyval) :
  k ∉ required_keys -> k <> "exception" ->
  load_from_dict uuid (<[k := v]> x) = load_from_dict uuid x.
Proof.
  intros Hk Hex. unfold required_keys in Hk.
  rewrite !elem_of_union, !elem_of_singleton in Hk.
  unfold load_from_dict, getitem.
  rewrite !lookup_insert_ne by (intros ->; intuition).
  reflexivity.
Qed.

Lemma X7_load_from_dict_raises_KeyError_witness :
  exn_class (Exn KeyError "start_time") = KeyError
  /\ (∅ : gmap string pyval) !! exn_message (Exn KeyError "start_time") = None
  /\ (exn_message (Exn KeyError "start_time") ∈ required_keys
      \/ exn_message (Exn KeyError "start_time") = "exception").
Proof.
  apply (X7_load_from_dict_raises_KeyError "" ∅ (Exn KeyError "start_time")).
  reflexivity.
Defined.

Lemma X8_load_from_dict_ignores_other_keys_witness :
  load_from_dict "" (<["trace" := VInt 7]> exception_representation)
  = load_from_dict "" exception_representation.
Proof.
  apply (X8_load_from_dict_ignores_other_keys "" exception_representation
           "trace" (VInt 7)).
  - unfold required_keys. rewrite !elem_of_union, !elem_of_singleton.
    intuition discriminate.
  - discriminate.
Defined.

(** ** Further properties of [set_exception] *)

(** Case analysis on a call of [set_exception] that returned. *)
Ltac set_exception_cases H from_logs d message traceback a :=
  unfold set_exception, bind, setitem_exception, lift, ret in H;
  simpl in H;
  destruct (exception _) as [| | | | | | |d|] eqn:?; simpl in H;
    try discriminate;
  destruct (obj_str _) as [message|] eqn:?; simpl in H; [|discriminate];
  destruct (_copy_user_data_safely _) as [traceback|] eqn:?; simpl in H;
    [|discriminate];
  destruct (version_major _ =? 3) eqn:?;
    destruct (SHOULD_REMOVE_EXCEPTION_FRAMES _) eqn:?; simpl in H;
    repeat (rewrite dict_get_set_ne in H by discriminate);
    (destruct (dict_get (KStr "additional_data") d)
       as [[| | | | | | |a|]|] eqn:?; simpl in H; try discriminate);
    (destruct from_logs; simpl in H; rewrite ?dict_get_set_eq in H;
     simpl in H; injection H as <-; simpl).

(** X9. When [set_exception] returns, the payload holds the type name (or
    ["Unknown"]), [str(exception)], the copy of the traceback data and the
    time; every entry under a key it does not write is as before. *)
Theorem X9_set_exception_payload (env : Env) (exc : pyobj) (tb : pyval)
  (handled from_logs : bool) (self self' : BaseEvent.t) :
  set_exception env exc tb handled from_logs self = (Ok tt, self') ->
  exists d d' message traceback,
    exception self = VDict d /\ exception self' = VDict d'
    /\ obj_str exc = Ok message
    /\ _copy_user_data_safely tb = Ok traceback
    /\ dict_get (KStr "type") d'
       = Some (VStr (match obj_type_name exc with
                     | Some name => name
                     | None => "Unknown"
                     end))
    /\ dict_get (KStr "message") d' = Some (VStr message)
    /\ dict_get (KStr "traceback") d' = Some traceback
    /\ dict_get (KStr "time") d' = Some (VFloat (time_time env))
    /\ (forall key,
          key ∉ KStr <$> payload_keys -> dict_get key d' = dict_get key d).
Proof.
  intros H. set_exception_cases H from_logs d message traceback a.
  all: eexists d, _, message, traceback.
  all: split; [reflexivity|]; split; [reflexivity|].
  all: split; [reflexivity|]; split; [reflexivity|].
  all: repeat (split;
               [repeat (rewrite dict_get_set_ne by discriminate);
                apply dict_get_set_eq|]).
  all: intros key Hkey; unfold payload_keys in Hkey; simpl in Hkey;
       rewrite !not_elem_of_cons in Hkey;
       destruct Hkey as (? & ? & ? & ? & ? & ? & _);
       repeat (rewrite dict_get_set_ne by assumption); reflexivity.
Qed.

(** X10. ["additional_data"] accumulates over calls: a returning
    [set_exception] sets ["handled"], sets ["from_logs"] when asked to and
    otherwise leaves it as it was (a flag set by an earlier call stays), and
    keeps every other entry. *)
Theorem X10_additional_data_accumulates (env : Env) (exc : pyobj) (tb : pyval)
  (handled from_logs : bool) (self self' : BaseEvent.t) :
  set_exception env exc tb handled from_logs self = (Ok tt, self') ->
  exists d d' a a',
    exception self = VDict d /\ exception self' = VDict d'
    /\ (dict_get (KStr "additional_data") d = Some (VDict a)
        \/ dict_get (KStr "additional_data") d = None /\ a = [])
    /\ dict_get (KStr "additional_data") d' = Some (VDict a')
    /\ dict_get (KStr "handled") a' = Some (VBool handled)
    /\ dict_get (KStr "from_logs") a'
       = (if from_logs then Some (VBool true)
          else dict_get (KStr "from_logs") a)
    /\ (forall key,
          key <> KStr "handled" -> key <> KStr "from_logs" ->
          dict_get key a' = dict_get key a).
Proof.
  intros H. set_exception_cases H from_logs d message traceback a.
  all: first [ eexists d, _, a, _; split; [reflexivity|];
               split; [reflexivity|]; split; [by left|]
             | eexists d, _, [], _; split; [reflexivity|];
               split; [reflexivity|]; split; [by right|] ].
  all: split; [apply dict_get_set_eq|].
  all: split;
       [first [reflexivity
              |repeat (rewrite dict_get_set_ne by discriminate);
               apply dict_get_set_eq]|].
  all: split;
       [first [reflexivity
              |apply dict_get_set_eq
              |rewrite dict_get_set_ne by discriminate; reflexivity]|].
  all: intros key ? ?; simpl;
       repeat (rewrite dict_get_set_ne by assumption);
       repeat (rewrite decide_False by assumption); reflexivity.
Qed.

(** X11. With frame collection off (the flag set, or a Python other than
    3), a returning [set_exception] leaves the ["frames"] entry as it was:
    it adds none and removes none. *)
Theorem X11_frames_untouched_when_off (env : Env) (exc : pyobj) (tb : pyval)
  (handled from_logs : bool) (self self' : BaseEvent.t) :
  SHOULD_REMOVE_EXCEPTION_FRAMES env = true \/ version_major env <> 3 ->
  set_exception env exc tb handled from_logs self = (Ok tt, self') ->
  exists d d',
    exception self = VDict d /\ exception self' = VDict d'
    /\ dict_get (KStr "frames") d' = dict_get (KStr "frames") d.
Proof.
  intros Hoff H. set_exception_cases H from_logs d message traceback a.
  all: try (destruct Hoff as [Hoff|Hoff];
            [congruence
            |match goal with
             | Hv : (version_major _ =? 3) = true |- _ =>
                 apply Z.eqb_eq in Hv; contradiction
             end]).
  all: eexists d, _; split; [reflexivity|]; split; [reflexivity|].
  all: repeat (rewrite dict_get_set_ne by discriminate); reflexivity.
Qed.

Lemma X9_set_exception_payload_witness :
  exists d d' message traceback,
    exception new_event = VDict d
    /\ exception logged_event = VDict d'
    /\ obj_str nameless_error = Ok message
    /\ _copy_user_data_safely (VStr "tb") = Ok traceback
    /\ dict_get (KStr "type") d' = Some (VStr "Unknown")
    /\ dict_get (KStr "message") d' = Some (VStr message)
    /\ dict_get (KStr "traceback") d' = Some traceback
    /\ dict_get (KStr "time") d' = Some (VFloat (time_time python2_env))
    /\ (forall key,
          key ∉ KStr <$> payload_keys -> dict_get key d' = dict_get key d).
Proof.
  apply (X9_set_exception_payload python2_env nameless_error (VStr "tb")
           true true new_event logged_event).
  vm_compute. reflexivity.
Defined.

Lemma X10_additional_data_accumulates_witness :
  exists d d' a a',
    exception logged_event = VDict d
    /\ exception
         (set_exception python2_env nameless_error (VStr "tb") false false
            logged_event).2 = VDict d'
    /\ (dict_get (KStr "additional_data") d = Some (VDict a)
        \/ dict_get (KStr "additional_data") d = None /\ a = [])
    /\ dict_get (KStr "additional_data") d' = Some (VDict a')
    /\ dict_get (KStr "handled") a' = Some (VBool false)
    /\ dict_get (KStr "from_logs") a' = dict_get (KStr "from_logs") a
    /\ (forall key,
          key <> KStr "handled" -> key <> KStr "from_logs" ->
          dict_get key a' = dict_get key a).
Proof.
  apply (X10_additional_data_accumulates python2_env nameless_error
           (VStr "tb") false false logged_event).
  vm_compute. reflexivity.
Defined.

Lemma X11_frames_untouched_when_off_witness :
  exists d d',
    exception new_event = VDict d /\ exception logged_event = VDict d'
    /\ dict_get (KStr "frames") d' = dict_get (KStr "frames") d.
Proof.
  apply (X11_frames_untouched_when_off python2_env nameless_error (VStr "tb")
           true true new_event logged_event).
  - right. discriminate.
  - vm_compute. reflexivity.
Defined.

(** ** Further properties of [_copy_user_data_safely] *)

Lemma dict_get_elem_of (k : pykey) (v : pyval) (d : pydict) :
  dict_get k d = Some v -> (k, v) ∈ d.
Proof.
  induction d as [|[k' v'] d IH]; simpl; [discriminate|].
  destruct (decide (k = k')) as [->|Hne].
  - intros [= ->]. apply elem_of_cons. by left.
  - intros H. apply elem_of_cons. right. auto.
Qed.

Lemma dict_get_pop_ne (k k0 : pykey) (d d' : pydict) :
  dict_pop k d = Ok d' -> k0 <> k -> dict_get k0 d' = dict_get k0 d.
Proof.
  unfold dict_pop. destruct (dict_get k d); [|discriminate].
  intros [= <-] Hne. unfold pydict.
  induction d as [|[k' v'] d IH]; [reflexivity|].
  rewrite filter_cons. simpl. destruct (decide (k <> k')) as [Hk|Hk]; simpl.
  - destruct (decide (k0 = k')); auto.
  - apply dec_stable in Hk. subst k'. rewrite decide_False by assumption.
    exact IH.
Qed.

Lemma copy_dict_Ok (d : pydict) (v : pyval) :
  _copy_user_data_safely (VDict d) = Ok v ->
  exists o, v = VDict o /\ copy_entries _copy_user_data_safely d d = Ok o.
Proof.
  destruct d as [|e d].
  - intros [= <-]. exists []. auto.
  - rewrite copy_dict_cons. intros H. apply fmap_Ok in H as (o & Ho & ->).
    eauto.
Qed.

(** What the loop leaves under each key. *)
Lemma copy_entries_lookup (entries acc out : pydict) :
  copy_entries _copy_user_data_safely entries acc = Ok out ->
  (forall s,
      dict_get (KStr s) out =
      match last_coerced s entries with
      | Some v => copied v
      | None => dict_get (KStr s) acc
      end)
  /\ (forall key,
        supported key -> (forall s, key <> KStr s) ->
        dict_get key out = dict_get key acc).
Proof.
  revert acc. induction entries as [|[k v] entries IH]; intros acc H.
  - injection H as <-. auto.
  - rewrite copy_entries_cons in H. apply bind_Ok in H as (w & Hw & H).
    simpl. destruct (unsupported_key_str k) as [str_key|] eqn:Hk.
    + apply bind_Ok in H as (popped & Hpop & H).
      apply bind_Ok in H as (s' & -> & H).
      destruct (IH _ H) as [IHs IHk]. split.
      * intros s. rewrite IHs.
        destruct (last_coerced s entries); [reflexivity|].
        destruct (bool_decide_reflect (s' = s)) as [->|Hne].
        -- rewrite dict_get_set_eq. unfold copied. by rewrite Hw.
        -- rewrite dict_get_set_ne by congruence.
           apply (dict_get_pop_ne _ _ _ _ Hpop).
           intros <-. discriminate.
      * intros key Hkey Hstr. rewrite (IHk key Hkey Hstr).
        rewrite dict_get_set_ne by apply Hstr.
        apply (dict_get_pop_ne _ _ _ _ Hpop).
        intros ->. unfold supported in Hkey. congruence.
    + destruct (IH _ H) as [IHs IHk]. split; [|exact IHk].
      intros s. rewrite IHs. destruct (last_coerced s entries); reflexivity.
Qed.

(** X12. In the copy of a dict no key of an unsupported type is left; a
    supported key that is not a string keeps its value as it was; under a
    string [s] is the copy of the value of the last entry whose unsupported
    key has the string [s], and the value as it was when there is no such
    entry. *)
Theorem X12_copy_dict_entries (d : pydict) (v : pyval) :
  _copy_user_data_safely (VDict d) = Ok v ->
  exists o,
    v = VDict o
    /\ (forall key, ~ supported key -> dict_get key o = None)
    /\ (forall key,
          supported key -> (forall s, key <> KStr s) ->
          dict_get key o = dict_get key d)
    /\ (forall s,
          dict_get (KStr s) o =
          match last_coerced s d with
          | Some x => copied x
          | None => dict_get (KStr s) d
          end).
Proof.
  intros H. apply copy_dict_Ok in H as (o & -> & Ho). exists o.
  destruct (copy_entries_lookup _ _ _ Ho) as [Hs Hk].
  split; [reflexivity|]. split; [|split; [exact Hk|exact Hs]].
  intros key Hkey. destruct (dict_get key o) as [x|] eqn:Hget; [|reflexivity].
  apply dict_get_elem_of in Hget. destruct Hkey.
  apply (copy_entries_keys _ _ _ _ Ho) in Hget; [exact Hget|].
  intros y Hy. right. by apply list_elem_of_fmap_2.
Qed.

(** X13. The copy of a list, and of a tuple that is not empty, is a list of
    the same length that holds the copies of the elements in order; the
    empty tuple stays a tuple. *)
Theorem X13_copy_sequence (l : list pyval) :
  (forall v,
      _copy_user_data_safely (VList l) = Ok v ->
      exists r,
        v = VList r
        /\ Forall2 (fun x y => _copy_user_data_safely x = Ok y) l r)
  /\ (forall v,
        l <> [] ->
        _copy_user_data_safely (VTuple l) = Ok v ->
        exists r,
          v = VList r
          /\ Forall2 (fun x y => _copy_user_data_safely x = Ok y) l r)
  /\ _copy_user_data_safely (VTuple []) = Ok (VTuple []).
Proof.
  split; [|split; [|reflexivity]].
  - intros v H. destruct l as [|x l].
    + injection H as <-. exists []. split; [reflexivity|constructor].
    + rewrite copy_list_cons in H. apply fmap_Ok in H as (r & Hr & ->).
      exists r. split; [reflexivity|]. by apply mapM_Ok.
  - intros v Hne H. destruct l as [|x l]; [done|].
    rewrite copy_tuple_cons in H. apply fmap_Ok in H as (r & Hr & ->).
    exists r. split; [reflexivity|]. by apply mapM_Ok.
Qed.

Lemma mapM_Raise {A B} (f : A -> result B) (l : list A) (e : pyexn) :
  mapM f l = Raise e <->
  exists l1 x l2,
    l = (l1 ++ x :: l2)%list
    /\ Forall (fun y => succeeds (f y)) l1
    /\ f x = Raise e.
Proof.
  induction l as [|y l IH]; simpl.
  - split; [discriminate|]. intros (l1 & x & l2 & Hl & _). by destruct l1.
  - destruct (f y) as [w|e'] eqn:Hy; simpl.
    + assert (mapM f l ≫= (fun k => mret (w :: k)) = Raise e
              <-> mapM f l = Raise e) as ->.
      { destruct (mapM f l); simpl; [split; discriminate|reflexivity]. }
      rewrite IH. split.
      * intros (l1 & x & l2 & -> & Hl1 & Hx).
        exists (y :: l1), x, l2. split; [reflexivity|].
        split; [|exact Hx]. constructor; [by eexists|exact Hl1].
      * intros (l1 & x & l2 & Heq & Hl1 & Hx).
        destruct l1 as [|y' l1]; simpl in Heq; injection Heq as -> ->.
        -- congruence.
        -- apply Forall_cons in Hl1 as [_ Hl1]. eauto 10.
    + split.
      * intros [= ->]. exists [], y, l. auto.
      * intros (l1 & x & l2 & Heq & Hl1 & Hx).
        destruct l1 as [|y' l1]; simpl in Heq; injection Heq as -> ->.
        -- congruence.
        -- apply Forall_cons in Hl1 as [[w Hw] _]. congruence.
Qed.

(** X14. The copy of a list raises exactly when the copy of one of its
    elements does, and then with the exception of the first such element. *)
Theorem X14_copy_list_raises (l : list pyval) (e : pyexn) :
  _copy_user_data_safely (VList l) = Raise e <->
  exists l1 x l2,
    l = (l1 ++ x :: l2)%list
    /\ Forall (fun y => succeeds (_copy_user_data_safely y)) l1
    /\ _copy_user_data_safely x = Raise e.
Proof.
  rewrite <- mapM_Raise. destruct l as [|x l].
  - split; discriminate.
  - rewrite copy_list_cons.
    destruct (mapM _copy_user_data_safely (x :: l)); simpl;
      split; congruence.
Qed.

Lemma X12_copy_dict_entries_witness :
  exists o,
    VDict [(KStr "(1, 2)", VList [VInt 1])] = VDict o
    /\ (forall key, ~ supported key -> dict_get key o = None)
    /\ (forall key,
          supported key -> (forall s, key <> KStr s) ->
          dict_get key o = dict_get key colliding_dict)
    /\ (forall s,
          dict_get (KStr s) o =
          match last_coerced s colliding_dict with
          | Some x => copied x
          | None => dict_get (KStr s) colliding_dict
          end).
Proof.
  apply (X12_copy_dict_entries colliding_dict
           (VDict [(KStr "(1, 2)", VList [VInt 1])])).
  vm_compute. reflexivity.
Defined.

Lemma X13_copy_sequence_witness :
  exists r,
    VList [VInt 1; VList [VInt 2]] = VList r
    /\ Forall2 (fun x y => _copy_user_data_safely x = Ok y)
         [VInt 1; VTuple [VInt 2]] r.
Proof.
  apply (proj1 (proj2 (X13_copy_sequence [VInt 1; VTuple [VInt 2]]))
           (VList [VInt 1; VList [VInt 2]])).
  - discriminate.
  - reflexivity.
Defined.

(** ** Further properties of the requests events *)

(** X15. [update_response] returns unless [response.json()] raises
    something other than a [ValueError] (of the class or of a subclass); it
    then holds the status code, the
    headers and, as body, the JSON value, or [None] when there is none, and
    keeps the other metadata. *)
Theorem X15_update_response_metadata (response : Response)
  (self : Requests.t) :
  (forall e, json response = Raise e -> is_ValueError (exn_class e) = true) ->
  exists self',
    update_response response self = Ok self'
    /\ metadata self' !! "status_code" = Some (VInt (status_code response))
    /\ metadata self' !! "response_headers"
       = Some (VDict (map (fun h => (KStr h.1, VStr h.2)) (headers response)))
    /\ metadata self' !! "response_body"
       = Some (match json response with Ok v => v | Raise _ => VNone end)
    /\ (forall k,
          k <> "status_code" -> k <> "response_headers" ->
          k <> "response_body" ->
          metadata self' !! k = metadata self !! k).
Proof.
  intros Hjson. unfold update_response.
  destruct (json response) as [v|e] eqn:Hj; simpl.
  - eexists. split; [reflexivity|].
    destruct (300 <=? status_code response); simpl;
      (split; [by simplify_map_eq|]); (split; [by simplify_map_eq|]);
      (split; [by simplify_map_eq|]); intros k ? ? ?; by simplify_map_eq.
  - rewrite (Hjson e eq_refl). simpl.
    eexists. split; [reflexivity|].
    destruct (300 <=? status_code response); simpl;
      (split; [by simplify_map_eq|]); (split; [by simplify_map_eq|]);
      (split; [by simplify_map_eq|]); intros k ? ? ?; by simplify_map_eq.
Qed.

(** A subclass of [ValueError] is swallowed like [ValueError] itself. *)
Example subclass_of_ValueError_swallowed :
  exists self',
    update_response undecodable_response denied_event = Ok self'
    /\ metadata self' !! "response_body" = Some VNone.
Proof. eexists. split; [reflexivity|]. vm_compute. reflexivity. Qed.

(** X16. An exception of [response.json()] that is not an instance of
    [ValueError] is not swallowed: [update_response] raises it. *)
Theorem X16_update_response_propagates (response : Response)
  (self : Requests.t) (e : pyexn) :
  json response = Raise e -> is_ValueError (exn_class e) = false ->
  update_response response self = Raise e.
Proof.
  intros Hj Hne. unfold update_response. rewrite Hj, Hne. reflexivity.
Qed.

(** X17. A returning [update_response] marks the event as an error exactly
    for a status code of 300 or more: the code becomes ERROR unless it is
    EXCEPTION, and below 300 the event is left as it is. *)
Theorem X17_update_response_error_code (response : Response)
  (self self' : Requests.t) :
  update_response response self = Ok self' ->
  base self'
  = (if 300 <=? status_code response
     then BaseEvent.set_error (base self) else base self)
  /\ (300 <= status_code response -> is_EXCEPTION (base self) = false ->
      error_code (base self') = VInt ErrorCode.ERROR)
  /\ is_EXCEPTION (base self') = is_EXCEPTION (base self).
Proof.
  unfold update_response. intros H. apply bind_Ok in H as (md & _ & H).
  injection H as <-.
  assert (base
            (if 300 <=? status_code response
             then set_error (with_metadata md self)
             else with_metadata md self)
          = (if 300 <=? status_code response
             then BaseEvent.set_error (base self) else base self)) as Hbase.
  { destruct (300 <=? status_code response); reflexivity. }
  rewrite Hbase. split; [reflexivity|]. split.
  - intros Hge Hexc. apply Z.leb_le in Hge. rewrite Hge.
    unfold BaseEvent.set_error. unfold is_EXCEPTION in Hexc. rewrite Hexc.
    reflexivity.
  - destruct (300 <=? status_code response); [|reflexivity].
    apply set_error_is_EXCEPTION.
Qed.

(** The choice is the class of the last entry that matches, and the
    starting class when none does. *)
Lemma select_fold (l : list (string * event_class)) (base_url : string)
  (acc : event_class) :
  fold_left
    (fun instance_type entry =>
       if PyStr.contains entry.1 (PyStr.lower base_url) then entry.2
       else instance_type) l acc
  = match last (List.filter (tag_matches base_url) l) with
    | Some entry => entry.2
    | None => acc
    end.
Proof.
  revert acc. induction l as [|e l IH]; intros acc; simpl; [reflexivity|].
  rewrite IH. unfold tag_matches at 2.
  destruct (PyStr.contains e.1 (PyStr.lower base_url)); [|reflexivity].
  rewrite last_cons.
  destruct (last (List.filter (tag_matches base_url) l)); reflexivity.
Qed.

(** X18. The class chosen is that of the last factory entry, in iteration
    order, whose tag occurs in the lower-cased host; it is [RequestsEvent]
    when no tag occurs in it. *)
Theorem X18_select_last_match (factory_iter : list (string * event_class))
  (base_url : string) :
  select_instance_type factory_iter base_url
  = match last (List.filter (tag_matches base_url) factory_iter) with
    | Some entry => entry.2
    | None => RequestsEvent
    end.
Proof. apply select_fold. Qed.

Lemma filter_tag_matches_elem (base_url : string)
  (l : list (string * event_class)) (e : string * event_class) :
  e ∈ List.filter (tag_matches base_url) l <->
  e ∈ l /\ tag_matches base_url e = true.
Proof.
  rewrite !list_elem_of_In. apply filter_In.
Qed.

(** X19. The order in which the factory yields its keys does not matter as
    long as the entries that match the host all name one class. *)
Theorem X19_select_order_independent
  (l l' : list (string * event_class)) (base_url : string) :
  Permutation l l' ->
  (forall e1 e2,
      e1 ∈ l -> e2 ∈ l ->
      tag_matches base_url e1 = true -> tag_matches base_url e2 = true ->
      e1.2 = e2.2) ->
  select_instance_type l base_url = select_instance_type l' base_url.
Proof.
  intros Hperm Hall. unfold select_instance_type. rewrite !select_fold.
  destruct (last (List.filter (tag_matches base_url) l)) as [e|] eqn:Hl;
    destruct (last (List.filter (tag_matches base_url) l')) as [e'|] eqn:Hl'.
  - apply last_Some_elem_of, filter_tag_matches_elem in Hl as [Hin Hm].
    apply last_Some_elem_of, filter_tag_matches_elem in Hl' as [Hin' Hm'].
    rewrite <- Hperm in Hin'. auto.
  - apply last_Some_elem_of, filter_tag_matches_elem in Hl as [Hin Hm].
    apply last_None in Hl'. rewrite Hperm in Hin.
    assert (e ∈ List.filter (tag_matches base_url) l') as Hin'
      by (by apply filter_tag_matches_elem).
    rewrite Hl' in Hin'. by apply elem_of_nil in Hin'.
  - apply last_Some_elem_of, filter_tag_matches_elem in Hl' as [Hin' Hm'].
    apply last_None in Hl. rewrite <- Hperm in Hin'.
    assert (e' ∈ List.filter (tag_matches base_url) l) as Hin
      by (by apply filter_tag_matches_elem).
    rewrite Hl in Hin. by apply elem_of_nil in Hin.
  - reflexivity.
Qed.

Lemma X15_update_response_metadata_witness :
  exists self',
    update_response not_found_response denied_event = Ok self'
    /\ metadata self' !! "status_code" = Some (VInt 404)
    /\ metadata self' !! "response_headers"
       = Some (VDict [(KStr "Content-Type", VStr "text/plain")])
    /\ metadata self' !! "response_body" = Some VNone
    /\ (forall k,
          k <> "status_code" -> k <> "response_headers" ->
          k <> "response_body" ->
          metadata self' !! k = metadata denied_event !! k).
Proof.
  apply (X15_update_response_metadata not_found_response denied_event).
  intros e [= <-]. reflexivity.
Defined.

Lemma X16_update_response_propagates_witness :
  update_response broken_response denied_event
  = Raise (Exn (OtherException "RuntimeError") "connection closed").
Proof.
  apply (X16_update_response_propagates broken_response denied_event).
  - reflexivity.
  - reflexivity.
Defined.

Lemma X17_update_response_error_code_witness :
  base not_found_event = BaseEvent.set_error (base denied_event)
  /\ (300 <= 404 -> is_EXCEPTION (base denied_event) = false ->
      error_code (base not_found_event) = VInt ErrorCode.ERROR)
  /\ is_EXCEPTION (base not_found_event) = is_EXCEPTION (base denied_event).
Proof.
  apply (X17_update_response_error_code not_found_response denied_event
           not_found_event).
  vm_compute. reflexivity.
Defined.

Lemma X19_select_order_independent_witness :
  select_instance_type factory "api.twilio.com"
  = select_instance_type (rev factory) "api.twilio.com".
Proof.
  apply (X19_select_order_independent factory (rev factory) "api.twilio.com").
  - apply Permutation_rev.
  - intros e1 e2 He1 He2. unfold factory in He1, He2. simpl in He1, He2.
    rewrite !elem_of_cons in He1. rewrite !elem_of_cons in He2.
    destruct He1 as [->|[->|[->|[->|He1]]]];
      try (intros [=]; fail); [|by apply elem_of_nil in He1].
    destruct He2 as [->|[->|[->|[->|He2]]]];
      try (intros _ [=]; fail); [|by apply elem_of_nil in He2].
    reflexivity.
Defined.

Lemma update_response_succeeds (response : Response) (self : Requests.t) :
  succeeds (update_response response self) <->
  (forall e, json response = Raise e -> is_ValueError (exn_class e) = true).
Proof.
  unfold update_response. destruct (json response) as [v|e]; simpl.
  - split; [intros _ e; discriminate|intros _; by eexists].
  - destruct (is_ValueError (exn_class e)) eqn:Hc; simpl.
    + split; [by intros _ e' [= <-]|intros _; by eexists].
    + split; [intros [? [=]]|].
      intros H. rewrite (H e eq_refl) in Hc. discriminate.
Qed.

(** X20. The body of the constructor returns exactly when [args] is not
    empty, [args[0]] has [method], [url] and [body], and [response.json()],
    if there is a response, raises nothing but a [ValueError] (of the class
    or of a subclass). *)
Theorem X20_init_body_returns_iff (cls : event_class) (uuid : string)
  (self_base : BaseEvent.t) (args : list PreparedRequest)
  (response : option Response) (exception : option pyobj) :
  succeeds (init_body cls uuid self_base args response exception) <->
  exists req,
    args !! 0%nat = Some req
    /\ is_Some (method req) /\ is_Some (url req) /\ is_Some (body req)
    /\ (forall r e,
          response = Some r -> json r = Raise e ->
          is_ValueError (exn_class e) = true).
Proof.
  unfold init_body, PyStr.item.
  destruct (args !! 0%nat) as [req|]; simpl;
    [|split; [intros [? [=]]|intros (? & [=] & _)]].
  destruct (method req) as [m|] eqn:Hm; simpl;
    [|split; [intros [? [=]]
             |intros (? & [= <-] & [? Hx] & _); congruence]].
  destruct (url req) as [u|] eqn:Hu; simpl;
    [|split; [intros [? [=]]
             |intros (? & [= <-] & _ & [? Hx] & _); congruence]].
  destruct (body req) as [b|] eqn:Hb; simpl;
    [|split; [intros [? [=]]
             |intros (? & [= <-] & _ & _ & [? Hx] & _); congruence]].
  destruct response as [r|]; simpl.
  - match goal with
    | |- context [update_response r ?s] =>
        pose proof (update_response_succeeds r s) as Hr;
        destruct (update_response r s) as [self1|e1]; simpl
    end.
    + split; [|intros _; by eexists].
      intros _. exists req. repeat (split; [by eauto|]).
      intros r' e [= <-]. apply Hr. by eexists.
    + split; [intros [? [=]]|].
      intros (? & _ & _ & _ & _ & H).
      assert (succeeds (Raise (A:=Requests.t) e1)) as [? [=]].
      apply Hr. intros e. by apply H.
  - split; [|intros _; by eexists].
    intros _. exists req. repeat (split; [by eauto|]). intros; discriminate.
Qed.

(** X21. An event the constructor body returns has the id ["requests-"]
    followed by the uuid, the resource name of its class and the request
    method as operation; built on a base whose code is not EXCEPTION, its
    code is ERROR exactly when an exception was passed or the status code is
    300 or more, and the code of the base otherwise. *)
Theorem X21_init_body_event (cls : event_class) (uuid : string)
  (self_base : BaseEvent.t) (args : list PreparedRequest)
  (response : option Response) (exception : option pyobj)
  (self : Requests.t) :
  init_body cls uuid self_base args response exception = Ok self ->
  is_EXCEPTION self_base = false ->
  event_id (base self) = VStr ("requests-" +:+ uuid)
  /\ resource_name self = EVENT_TYPE cls
  /\ (exists req,
        args !! 0%nat = Some req /\ method req = Some (event_operation self))
  /\ error_code (base self)
     = (if bool_decide (is_Some exception)
           || match response with
              | Some r => 300 <=? status_code r
              | None => false
              end
        then VInt ErrorCode.ERROR
        else error_code self_base).
Proof.
  unfold init_body, PyStr.item. intros H Hexc.
  destruct (args !! 0%nat) as [req|]; simpl in H; [|discriminate].
  destruct (method req) as [m|] eqn:Hm; simpl in H; [|discriminate].
  destruct (url req) as [u|] eqn:Hu; simpl in H; [|discriminate].
  destruct (body req) as [b|] eqn:Hb; simpl in H; [|discriminate].
  unfold is_EXCEPTION in Hexc.
  destruct response as [r|]; simpl in H.
  - unfold update_response in H. apply bind_Ok in H as (self1 & H1 & H).
    apply bind_Ok in H1 as (md & _ & H1). injection H1 as <-.
    injection H as <-.
    destruct exception as [exc|], (300 <=? status_code r); simpl;
      unfold BaseEvent.set_error; simpl; rewrite ?Hexc; simpl;
      repeat (split; [reflexivity|]); try reflexivity.
    all: split; [by exists req|reflexivity].
  - injection H as <-.
    destruct exception as [exc|]; simpl;
      unfold BaseEvent.set_error; simpl; rewrite ?Hexc; simpl;
      (split; [reflexivity|]); (split; [reflexivity|]);
      (split; [by exists req|reflexivity]).
Qed.

Lemma X21_init_body_event_witness :
  event_id (base twilio_not_found_event) = VStr "requests-7f3a"
  /\ resource_name twilio_not_found_event = "twilio"
  /\ (exists req,
        [twilio_request] !! 0%nat = Some req
        /\ method req = Some (event_operation twilio_not_found_event))
  /\ error_code (base twilio_not_found_event) = VInt ErrorCode.ERROR.
Proof.
  apply (X21_init_body_event RequestsTwilioEvent "7f3a" new_event
           [twilio_request] (Some not_found_response) None
           twilio_not_found_event).
  - vm_compute. reflexivity.
  - reflexivity.
Defined.
